(** * PCCOER help desk: bonafide application workflow

  A shallow embedding of the two programs of the repository,
  [TgBot.py] (the Telegram conversation that verifies a student and
  files a bonafide application) and [web.py] (the Flask console in
  which an administrator processes applications and prints the
  certificate), together with the properties their specification
  states about them.

  Layout: Python strings, then the Firebase nodes the two programs
  share, then one module per source file, then the theorems. *)

From Stdlib Require Import NArith Ascii.
From stdpp Require Import gmap strings list fin_maps.

Local Open Scope N_scope.

(** ** Python strings *)

Module Py.

(** A Python [str] is a sequence of Unicode code points. *)
Abbreviation str := (list N).

(** An ASCII literal of the source, as a [str]. *)
Definition lit (s : string) : str :=
  (λ a, N_of_ascii a) <$> String.list_ascii_of_string s.

Definition isascii (c : N) : bool := c <? 128.

(** [Py_UNICODE_ISSPACE]: the code points [str.strip()] removes. *)
Definition isspace (c : N) : bool :=
  ((0x09 <=? c) && (c <=? 0x0D)) || ((0x1C <=? c) && (c <=? 0x20))
  || (c =? 0x85) || (c =? 0xA0) || (c =? 0x1680)
  || ((0x2000 <=? c) && (c <=? 0x200A))
  || (c =? 0x2028) || (c =? 0x2029) || (c =? 0x202F) || (c =? 0x205F)
  || (c =? 0x3000).

Fixpoint lstrip (s : str) : str :=
  match s with
  | [] => []
  | c :: r => if isspace c then lstrip r else s
  end.

Definition rstrip (s : str) : str := rev (lstrip (rev s)).

(** [s.strip()] *)
Definition strip (s : str) : str := rstrip (lstrip s).

(** [str(n)] for a natural number: its decimal digits. *)
Fixpoint uint_str (u : Decimal.uint) : str :=
  match u with
  | Decimal.Nil => []
  | Decimal.D0 r => 48 :: uint_str r
  | Decimal.D1 r => 49 :: uint_str r
  | Decimal.D2 r => 50 :: uint_str r
  | Decimal.D3 r => 51 :: uint_str r
  | Decimal.D4 r => 52 :: uint_str r
  | Decimal.D5 r => 53 :: uint_str r
  | Decimal.D6 r => 54 :: uint_str r
  | Decimal.D7 r => 55 :: uint_str r
  | Decimal.D8 r => 56 :: uint_str r
  | Decimal.D9 r => 57 :: uint_str r
  end.

Definition str_of_int (n : N) : str := uint_str (N.to_uint n).

(** The part of the Unicode character database that is not fixed by
    ASCII: the digit value [unicodedata.digit] gives a code point
    ([None] where it raises [ValueError]) and the full uppercase
    mapping [str.upper] applies to it. *)
Class UnicodeData := {
  ucd_digit : N → option N;
  ucd_upper : N → list N;
}.

Section WithUnicode.
Context `{UnicodeData}.

(** [unicodedata.digit(ch)]; ['0'..'9'] are the ASCII digits. *)
Definition digit (c : N) : option N :=
  if isascii c then
    if (48 <=? c) && (c <=? 57) then Some (c - 48) else None
  else ucd_digit c.

(** [s.isdigit()]: non-empty and every character has a digit value. *)
Definition isdigit (s : str) : bool :=
  match s with
  | [] => false
  | _ => forallb (λ c, bool_decide (is_Some (digit c))) s
  end.

(** Uppercase mapping of one code point (it may be several). *)
Definition toupper (c : N) : list N :=
  if isascii c then
    [if (97 <=? c) && (c <=? 122) then c - 32 else c]
  else ucd_upper c.

(** [s.upper()] *)
Definition upper (s : str) : str := s ≫= toupper.

End WithUnicode.

(** A database that knows the fullwidth digits and the Latin-1
    lowercase letters; enough to run the examples. *)
Definition sample_unicode : UnicodeData := {|
  ucd_digit c :=
    if (0xFF10 <=? c) && (c <=? 0xFF19) then Some (c - 0xFF10) else None;
  ucd_upper c :=
    if (0xE0 <=? c) && (c <=? 0xFE) && negb (c =? 0xF7) then [c - 32]
    else [c];
|}.

End Py.

(** ** The Firebase Realtime Database nodes

  Both programs hold a reference to the node [bonafide_applications]
  and one to [Students].  A node is a JSON object; its children are
  objects with string fields.  Reading an absent child gives [None],
  [update] merges the given fields into the child at the path and
  creates the child when there is none, [set] replaces it. *)

Module Firebase.

Abbreviation record := (gmap string Py.str).
Abbreviation node := (gmap Py.str (gmap string Py.str)).

(** [ref.child(key).get()] *)
Definition child_get (key : Py.str) (n : node) : option record := n !! key.

(** [ref.child(key).update(fields)] *)
Definition child_update (key : Py.str) (fields : record) (n : node) : node :=
  <[key := fields ∪ default ∅ (n !! key)]> n.

(** [ref.push().set(value)], [key] being the identifier [push()] made. *)
Definition push_set (key : Py.str) (value : record) (n : node) : node :=
  <[key := value]> n.

(** Python truthiness of what [get()] returned: [None] and the empty
    object are false. *)
Definition truthy (r : option record) : bool :=
  match r with
  | None => false
  | Some d => negb (bool_decide (d = ∅))
  end.

(** [d.get(k, dflt)] *)
Definition get_or (d : record) (k : string) (dflt : Py.str) : Py.str :=
  default dflt (d !! k).

End Firebase.

(** ** web.py

    The views below are the bodies of the routes; [login_required]
    lets a request reach them only for a logged-in administrator. *)

Module Web.
Import Py Firebase.

(** What a view function returns. *)
Inductive Response :=
| Redirect (endpoint : string) (app_id : option str)
| Body (text : string) (code : N)
| SendFile (download_name : str) (drawn : list str).

(** [flash(message, category)] *)
Record Flash := { message : str; category : string }.

(** The tuple [new_status] is checked against. *)
Definition statuses : list str :=
  [lit "Pending"; lit "Approved"; lit "Rejected"].

(** [process_application(app_id)].  [form_status] is the form's
    [status] field when it is present, [now] is
    [datetime.utcnow().isoformat()], [db_ok] tells whether the
    database request completes rather than raises.  Result: the
    applications node, the messages flashed, the response. *)
Definition process_application
    (db_ok : bool) (now : str) (app_id : str) (form_status : option str)
    (applications_ref : node) : node * list Flash * Response :=
  let new_status := strip (default (lit "") form_status) in
  let back := Redirect "view_application" (Some app_id) in
  if bool_decide (new_status ∉ statuses) then
    (applications_ref,
     [{| message := lit "Invalid status."; category := "error" |}],
     back)
  else if db_ok then
    (child_update app_id
       (<["status" := new_status]> (<["processed_at" := now]> ∅))
       applications_ref,
     [{| message := lit "Application " ++ app_id
                    ++ lit " status updated to " ++ new_status ++ lit ".";
         category := "success" |}],
     back)
  else
    (applications_ref,
     [{| message := lit "Failed to update application in database.";
         category := "danger" |}],
     back).

(** [view_application(app_id)]; a page is rendered from the record.
    [render_ok] tells whether [render_template] completes.  It raises
    when the template cannot be rendered, and nothing in the view
    catches that: the request fails with a server error.  (The
    application.html that [TPLS] holds asks [url_for] for an endpoint
    [generate_bonafide], which the file does not define.) *)
Inductive Page :=
| Rendered (template : string) (app_id : str) (app : record)
| Away (flashed : list Flash) (r : Response)
| ServerError.

Definition view_application
    (db_ok render_ok : bool) (app_id : str) (applications_ref : node) : Page :=
  let app_data := if db_ok then child_get app_id applications_ref else None in
  match app_data with
  | Some app =>
      if truthy app_data then
        if render_ok then Rendered "application.html" app_id app
        else ServerError
      else Away [{| message := lit "Application not found.";
                    category := "danger" |}]
                (Redirect "dashboard" None)
  | None =>
      Away [{| message := lit "Application not found.";
               category := "danger" |}]
           (Redirect "dashboard" None)
  end.

(** [print_bonafide(app_id)].  [render_ok] tells whether drawing the
    template image and saving the PDF completes, [today] is
    [datetime.now().strftime("%d / %m / %Y")].  The strings drawn on
    the page are listed in drawing order. *)
Definition print_bonafide
    (db_ok render_ok : bool) (today : str) (app_id : str)
    (applications_ref : node) : Response :=
  let failed := Body "PDF generation failed. Check server logs." 500 in
  if negb db_ok then failed
  else
    let app_data := child_get app_id applications_ref in
    match app_data with
    | None => Body "Application not found" 404
    | Some app =>
        if negb (truthy app_data) then Body "Application not found" 404
        else if bool_decide (app !! "status" ≠ Some (lit "Approved")) then
          Body "Application not approved" 403
        else if negb render_ok then failed
        else
          let name := get_or app "name" (lit "") in
          let prn := get_or app "prn" (lit "") in
          let batch := get_or app "batch" (lit "") in
          let branch := get_or app "branch" (lit "Engineering") in
          let year := get_or app "year" (lit "First Year") in
          let purpose := get_or app "purpose" (lit "Bonafide Certificate") in
          SendFile (prn ++ lit "_bonafide.pdf")
                   [name; year; branch; prn; batch; purpose; today]
    end.

(** *** Signing in *)

(** The configuration block of the file. *)
Record Config := { ADMIN_USERNAME : str; ADMIN_PASSWORD : str }.

(** [AdminUser(id)]; [get_id()] is the identifier. *)
Record AdminUser := { id : str }.

(** [load_user(user_id)]: the user the login manager restores from
    the identifier kept in the session. *)
Definition load_user (cfg : Config) (user_id : str) : option AdminUser :=
  if bool_decide (user_id = ADMIN_USERNAME cfg) then Some {| id := user_id |}
  else None.

Inductive Method := GET | POST.

(** What [login] answers: the user given to [login_user], if any, the
    messages flashed, and a redirect or the template rendered. *)
Record LoginAnswer := {
  logged_in : option AdminUser;
  login_flashed : list Flash;
  login_view : Response + string;
}.

(** [login()], [form] being [request.form]. *)
Definition login (cfg : Config) (method : Method) (form : gmap string str)
  : LoginAnswer :=
  match method with
  | POST =>
      let username := strip (default (lit "") (form !! "username")) in
      let password := strip (default (lit "") (form !! "password")) in
      if bool_decide (username = ADMIN_USERNAME cfg)
         && bool_decide (password = ADMIN_PASSWORD cfg) then
        {| logged_in := Some {| id := username |};
           login_flashed :=
             [{| message := lit "Logged in successfully.";
                 category := "success" |}];
           login_view := inl (Redirect "dashboard" None) |}
      else
        {| logged_in := None;
           login_flashed :=
             [{| message := lit "Invalid username or password.";
                 category := "danger" |}];
           login_view := inr "login.html" |}
  | GET =>
      {| logged_in := None; login_flashed := []; login_view := inr "login.html" |}
  end.

(** *** Default templates *)

(** [ensure_templates()], on the files of the [templates] directory
    (name to content); [tpls] is the dictionary [TPLS], in insertion
    order.  A file is written only when no file of that name exists. *)
Definition ensure_templates (tpls : list (string * str))
    (tpl_dir : gmap string str) : gmap string str :=
  foldl (λ dir (tpl : string * str),
           match dir !! tpl.1 with
           | Some _ => dir
           | None => <[tpl.1 := tpl.2]> dir
           end)
        tpl_dir tpls.

(** [TPLS] has these three names; the contents are the HTML texts. *)
Definition TPLS (login_html dashboard_html application_html : str)
  : list (string * str) :=
  [("login.html", login_html); ("dashboard.html", dashboard_html);
   ("application.html", application_html)].

End Web.

(** ** TgBot.py *)

Module TgBot.
Import Py Firebase.

(** Conversation states; a callback returns one of them or
    [ConversationHandler.END]. *)
Inductive State := GET_PRN | GET_NAME | GET_PHONE | CONFIRM.

Inductive Next := Goto (s : State) | END.

(** [context.user_data], the dictionary the library keeps per user.
    A field is [None] while its key is absent. *)
Record UserData := {
  ud_chat_id : option Z;
  ud_prn : option str;
  ud_student_data : option record;
  ud_name : option str;
  ud_phone : option str;
}.

Definition no_user_data : UserData :=
  {| ud_chat_id := None; ud_prn := None; ud_student_data := None;
     ud_name := None; ud_phone := None |}.

(** What the bot holds between updates: the user's dictionary and the
    two database nodes ([Students] is only read). *)
Record World := {
  user_data : UserData;
  student_ref : node;
  applications_ref : node;
}.

(** What the handling of one update does to the outside. *)
Inductive Effect :=
| Say (text : str)
| Create (application_data : record).

(** What the outside does during one update: whether
    [query.answer()] completes, whether [reply_text] and
    [edit_message_text] complete, whether the database requests
    complete, and the key [applications_ref.push()] generates. *)
Record Env := {
  answer_ok : bool;
  send_ok : bool;
  db_ok : bool;
  push_key : str;
}.

(** A callback query: its data, the chat of its message and
    [str(query.message.date)]. *)
Record Query := { data : str; message_chat_id : Z; message_date : str }.

(** The updates the conversation can be offered: a new text message
    that is not a command, a new message that is a command (its name
    in lower case, as [CommandHandler] compares it), a callback query,
    and any other update, which leaves the conversation untouched (no
    handler matches it, or the callback stops at [update.message.text]
    because the update carries no new message).  An edited message
    that is a command is not among the updates modelled. *)
Inductive Update :=
| Text (text : str)
| Command (cmd : string)
| Callback (query : Query)
| Other.

(** *** Handler bodies

    A body runs on the world, logs its effects and either returns a
    value or raises ([None]). *)
Definition Handler (A : Type) : Type := World → World * list Effect * option A.

Definition ret {A} (a : A) : Handler A := λ w, (w, [], Some a).

Definition raise {A} : Handler A := λ w, (w, [], None).

Definition bind {A B} (m : Handler A) (k : A → Handler B) : Handler B :=
  λ w, let '(w1, fx1, r) := m w in
       match r with
       | Some a => let '(w2, fx2, r2) := k a w1 in (w2, fx1 ++ fx2, r2)
       | None => (w1, fx1, None)
       end.

(** [try: body  except Exception: handler] *)
Definition try_except {A} (body handler : Handler A) : Handler A :=
  λ w, let '(w1, fx1, r) := body w in
       match r with
       | Some a => (w1, fx1, Some a)
       | None => let '(w2, fx2, r2) := handler w1 in (w2, fx1 ++ fx2, r2)
       end.

(** [try: body  finally: return v]: the [return] of the [finally]
    clause drops an exception that is in flight. *)
Definition finally_return {A B} (body : Handler A) (v : B) : Handler B :=
  λ w, let '(w1, fx1, _) := body w in (w1, fx1, Some v).

Declare Scope handler_scope.
Delimit Scope handler_scope with handler.
Notation "x <- m ;; k" := (bind m (λ x, k))
  (at level 100, m at next level, right associativity) : handler_scope.
Notation "m ;; k" := (bind m (λ _, k))
  (at level 100, right associativity) : handler_scope.
Local Open Scope handler_scope.

Definition get_user_data : Handler UserData := λ w, (w, [], Some (user_data w)).

Definition set_user_data (f : UserData → UserData) : Handler unit :=
  λ w, ({| user_data := f (user_data w); student_ref := student_ref w;
           applications_ref := applications_ref w |}, [], Some tt).

(** [await update.message.reply_text(text)] and
    [await query.edit_message_text(text)] *)
Definition send (e : Env) (text : str) : Handler unit :=
  λ w, if send_ok e then (w, [Say text], Some tt) else (w, [], None).

(** [await query.answer()] *)
Definition answer (e : Env) : Handler unit :=
  λ w, if answer_ok e then (w, [], Some tt) else (w, [], None).

(** [student_ref.child(prn).get()] *)
Definition students_get (e : Env) (key : str) : Handler (option record) :=
  λ w, if db_ok e then (w, [], Some (child_get key (student_ref w)))
       else (w, [], None).

(** [applications_ref.push().set(application_data)], with [db_ok]
    standing for both requests it makes: [push()] asks the database
    for the key, [set()] writes the record under it.  Both completing
    is the case [db_ok = true].  The other case stands for either of
    them raising; what the database holds under the key when [push()]
    completed and [set()] raised is not modelled. *)
Definition applications_push_set (e : Env) (value : record) : Handler unit :=
  λ w, if db_ok e then
         ({| user_data := user_data w; student_ref := student_ref w;
             applications_ref :=
               push_set (push_key e) value (applications_ref w) |},
          [Create value], Some tt)
       else (w, [Create value], None).

(** [try: x = body  except Exception: ...]: the value, or [None] when
    the body raised. *)
Definition attempt {A} (body : Handler A) : Handler (option A) :=
  λ w, let '(w1, fx1, r) := body w in (w1, fx1, Some r).

(** A key whose value is [None] is not stored. *)
Definition put (k : string) (v : option str) (d : record) : record :=
  match v with
  | Some x => <[k := x]> d
  | None => d
  end.

Definition with_chat_id (v : Z) (ud : UserData) : UserData :=
  {| ud_chat_id := Some v; ud_prn := ud_prn ud;
     ud_student_data := ud_student_data ud;
     ud_name := ud_name ud; ud_phone := ud_phone ud |}.

Definition with_prn (v : str) (sd : record) (ud : UserData) : UserData :=
  {| ud_chat_id := ud_chat_id ud; ud_prn := Some v;
     ud_student_data := Some sd;
     ud_name := ud_name ud; ud_phone := ud_phone ud |}.

Definition with_name (v : str) (ud : UserData) : UserData :=
  {| ud_chat_id := ud_chat_id ud; ud_prn := ud_prn ud;
     ud_student_data := ud_student_data ud;
     ud_name := Some v; ud_phone := ud_phone ud |}.

Definition with_phone (v : str) (ud : UserData) : UserData :=
  {| ud_chat_id := ud_chat_id ud; ud_prn := ud_prn ud;
     ud_student_data := ud_student_data ud;
     ud_name := ud_name ud; ud_phone := Some v |}.

Section Handlers.
Context `{UnicodeData}.

(** [start_bonafide_flow(update, context)] *)
Definition start_bonafide_flow (e : Env) (u : Update) : Handler Next :=
  match u with
  | Callback query =>
      answer e ;;
      set_user_data (with_chat_id (message_chat_id query)) ;;
      send e (lit "Please enter your 8-digit PRN Number:") ;;
      ret (Goto GET_PRN)
  | Text _ | Command _ =>
      send e (lit "Please click the Bonafide button from the admin office menu.") ;;
      ret END
  | Other => ret END
  end.

(** The loop of [get_prn] that rewrites the characters of [prn]:
    a character with a digit value becomes [str(d)], any other is
    kept. *)
Definition converted (prn : str) : str :=
  prn ≫= (λ ch, match digit ch with
                 | Some d => str_of_int d
                 | None => [ch]
                 end).

(** [prn] as [get_prn] has it when it reaches the validation: the
    stripped text, rewritten when it holds a non-ASCII character. *)
Definition normalized_prn (raw : str) : str :=
  let prn := strip raw in
  let prn_ascii := List.filter isascii prn in
  if bool_decide (prn_ascii ≠ prn) then converted prn else prn.

(** [get_prn(update, context)], [raw] being [update.message.text]. *)
Definition get_prn (e : Env) (raw : str) : Handler Next :=
  let prn := normalized_prn raw in
  if negb (isdigit prn) || bool_decide (length prn ≠ 8%nat) then
    send e (lit "Invalid PRN. Please enter your 8-digit PRN number (digits only) or type /cancel.") ;;
    ret (Goto GET_PRN)
  else
    got <- attempt (students_get e prn) ;;
    match got with
    | None =>
        send e (lit "Database error. Please try again later.") ;;
        ret END
    | Some student_data =>
        match student_data with
        | Some sd =>
            if truthy student_data then
              set_user_data (with_prn prn sd) ;;
              send e (lit "PRN Verified for: "
                      ++ get_or sd "name" (lit "<name not available>")
                      ++ [10; 10]
                      ++ lit "Please enter your FULL NAME as per records in the format:"
                      ++ [10] ++ lit "SURNAME FIRST FATHER'S NAME") ;;
              ret (Goto GET_NAME)
            else
              send e (lit "Invalid PRN. That PRN is not found in our database. Please try again or type /cancel to exit.") ;;
              ret (Goto GET_PRN)
        | None =>
            send e (lit "Invalid PRN. That PRN is not found in our database. Please try again or type /cancel to exit.") ;;
            ret (Goto GET_PRN)
        end
    end.

(** [get_name(update, context)]; an absent [student_data] key is a
    [KeyError]. *)
Definition get_name (e : Env) (text : str) : Handler Next :=
  let name_input := upper (strip text) in
  ud <- get_user_data ;;
  match ud_student_data ud with
  | None => raise
  | Some sd =>
      let correct_name := upper (strip (get_or sd "name" (lit ""))) in
      if bool_decide (name_input ≠ correct_name) then
        send e (lit "Invalid input. Name does not match database record ("
                ++ correct_name ++ lit "). Please try again or type /cancel.") ;;
        ret (Goto GET_NAME)
      else
        set_user_data (with_name (strip text)) ;;
        send e (lit "Name verified. Please submit your 10-digit registered phone number.") ;;
        ret (Goto GET_PHONE)
  end.

(** [get_phone(update, context)] *)
Definition get_phone (e : Env) (text : str) : Handler Next :=
  let phone_input := strip text in
  ud <- get_user_data ;;
  match ud_student_data ud with
  | None => raise
  | Some sd =>
      let correct_phone := strip (get_or sd "phone" (lit "")) in
      if bool_decide (phone_input ≠ correct_phone) then
        send e (lit "Invalid input. Phone number does not match our records. Please try again or type /cancel.") ;;
        ret (Goto GET_PHONE)
      else
        set_user_data (with_phone phone_input) ;;
        send e (lit "All details verified." ++ [10]
                ++ lit "Are you sure you want to submit the application for a bonafide certificate?") ;;
        ret (Goto CONFIRM)
  end.

(** The dictionary [confirm_submission] builds. *)
Definition application_data (ud : UserData) (query : Query) : record :=
  let student_data := default ∅ (ud_student_data ud) in
  put "prn" (ud_prn ud)
    (put "name" (ud_name ud)
       (put "phone" (ud_phone ud)
          (put "batch" (student_data !! "batch")
             (<["status" := lit "Pending"]>
                (<["submitted_at" := message_date query]> ∅))))).

(** [confirm_submission(update, context)] on a callback query. *)
Definition confirm_submission (e : Env) (query : Query) : Handler Next :=
  answer e ;;
  if bool_decide (data query = lit "confirm_yes") then
    finally_return
      (try_except
         (ud <- get_user_data ;;
          applications_push_set e (application_data ud query) ;;
          send e (lit "Application submitted successfully. You will be notified when it is processed."))
         (send e (lit "An error occurred. Please try again later.")))
      END
  else
    send e (lit "Application cancelled.") ;;
    ret END.

(** [cancel(update, context)] *)
Definition cancel (e : Env) (u : Update) : Handler Next :=
  match u with
  | Text _ | Command _ => send e (lit "Operation cancelled.")
  | _ => ret tt
  end ;;
  match u with
  | Callback _ => answer e ;; send e (lit "Operation cancelled.")
  | _ => ret tt
  end ;;
  ret END.

(** *** The conversation handler of [main] *)

(** [re.match] of the pattern [^literal$]: [$] also matches before a
    final newline. *)
Definition re_match (literal s : str) : bool :=
  bool_decide (s = literal) || bool_decide (s = literal ++ [10]).

(** [fallbacks]: the command [/cancel] and the callback [cancel]. *)
Definition fallbacks (e : Env) (u : Update) : option (Handler Next) :=
  match u with
  | Command c =>
      if bool_decide (c = "cancel") then Some (cancel e u) else None
  | Callback q =>
      if re_match (lit "cancel") (data q) then Some (cancel e u) else None
  | _ => None
  end.

(** The callback the conversation picks for an update: with no
    conversation under way ([None]) the entry point, otherwise the
    handlers of the state and then the fallbacks
    ([allow_reentry=False]: the entry point is not tried again). *)
Definition select (e : Env) (st : option State) (u : Update)
  : option (Handler Next) :=
  match st with
  | None =>
      match u with
      | Callback q =>
          if re_match (lit "start_bonafide_flow") (data q)
          then Some (start_bonafide_flow e u) else None
      | _ => None
      end
  | Some GET_PRN =>
      match u with Text t => Some (get_prn e t) | _ => fallbacks e u end
  | Some GET_NAME =>
      match u with Text t => Some (get_name e t) | _ => fallbacks e u end
  | Some GET_PHONE =>
      match u with Text t => Some (get_phone e t) | _ => fallbacks e u end
  | Some CONFIRM =>
      match u with
      | Callback q =>
          if re_match (lit "confirm_yes") (data q)
             || re_match (lit "confirm_no") (data q)
          then Some (confirm_submission e q) else fallbacks e u
      | _ => fallbacks e u
      end
  end.

(** One update through [conv_handler]: the state a callback returns
    becomes the state of the conversation, [END] closes it, and a
    callback that raises leaves the state as it was. *)
Definition conv_handler (e : Env) (st : option State) (u : Update) (w : World)
  : World * list Effect * option State :=
  match select e st u with
  | None => (w, [], st)
  | Some h =>
      let '(w1, fx, r) := h w in
      (w1, fx, match r with
               | Some (Goto s) => Some s
               | Some END => None
               | None => st
               end)
  end.

(** A session: the updates of one user from a state of the
    conversation until the conversation ends. *)
Fixpoint session (s : State) (w : World) (updates : list (Env * Update))
  : World * list Effect * option State :=
  match updates with
  | [] => (w, [], Some s)
  | (e, u) :: rest =>
      let '(w1, fx1, st) := conv_handler e (Some s) u w in
      match st with
      | Some s1 =>
          let '(w2, fx2, st2) := session s1 w1 rest in (w2, fx1 ++ fx2, st2)
      | None => (w1, fx1, None)
      end
  end.

(** The conversation over all the updates of one user, session after
    session; one step per update: the state before, the effects, the
    state after. *)
Fixpoint run (st : option State) (w : World) (updates : list (Env * Update))
  : list (option State * list Effect * option State) :=
  match updates with
  | [] => []
  | (e, u) :: rest =>
      let '(w1, fx, st1) := conv_handler e st u w in
      (st, fx, st1) :: run st1 w1 rest
  end.

End Handlers.

Definition is_create (x : Effect) : bool :=
  match x with Create _ => true | Say _ => false end.

(** How many times [applications_ref.push().set] was called. *)
Definition creates (fx : list Effect) : nat := length (List.filter is_create fx).

(** *** The menus and the application of [main] *)

(** An inline keyboard button and a message with its keyboard. *)
Record Button := { label : str; callback_data : str }.

Record Menu := { menu_text : str; reply_markup : list Button }.

(** [start(update, context)] on a [/start] message: the menu sent, or
    [None] when sending raises. *)
Definition start (e : Env) : option Menu :=
  if send_ok e then
    Some {| menu_text := lit "Select your year:";
            reply_markup :=
              [ {| label := lit "First Year"; callback_data := lit "first_year" |};
                {| label := lit "Second Year"; callback_data := lit "second_year" |};
                {| label := lit "Third Year"; callback_data := lit "third_year" |};
                {| label := lit "New Admission"; callback_data := lit "new_admission" |};
                {| label := lit "Admin Office"; callback_data := lit "admin_office" |} ] |}
  else None.

(** [help_command(update, context)] *)
Definition help_command (e : Env) : option str :=
  if send_ok e then
    Some (lit "I can help you with university tasks (menus). Use /start to open the menu.")
  else None.

(** [button_click_handler(update, context)] on a callback query whose
    data is [data]: the message the query's message is edited to, or
    [None] when [answer] or the edit raises. *)
Definition button_click_handler (e : Env) (data : str) : option Menu :=
  if answer_ok e then
    if send_ok e then
      Some
        (if bool_decide (data = lit "first_year") then
           {| menu_text := lit "Shows the menu for first-year students.";
              reply_markup :=
                [ {| label := lit "Academic"; callback_data := lit "academic" |};
                  {| label := lit "Back"; callback_data := lit "main_menu" |} ] |}
         else if bool_decide (data = lit "new_admission") then
           {| menu_text :=
                lit "This is admission details. Steps and documents required:"
                ++ [10] ++ lit "1. Step one..." ++ [10] ++ lit "2. Step two..."
                ++ [10; 10]
                ++ lit "If you need more help, contact the admin office.";
              reply_markup := [] |}
         else if bool_decide (data = lit "admin_office") then
           {| menu_text := lit "Shows the menu for admin office tasks.";
              reply_markup :=
                [ {| label := lit "Fee Receipt"; callback_data := lit "fee_receipt" |};
                  {| label := lit "Bonafide"; callback_data := lit "start_bonafide_flow" |};
                  {| label := lit "Admission Details"; callback_data := lit "admission_details" |};
                  {| label := lit "Back"; callback_data := lit "first_year" |} ] |}
         else if bool_decide (data = lit "main_menu") then
           {| menu_text := lit "Use /start to open main menu again.";
              reply_markup := [] |}
         else
           {| menu_text := lit "You selected: " ++ data
                           ++ lit " (This menu is not yet built)";
              reply_markup := [] |})
    else None
  else None.

(** The alternatives of the pattern [button_click_handler] is
    registered with. *)
Definition menu_alternatives : list str :=
  [lit "first_year"; lit "second_year"; lit "third_year";
   lit "new_admission"; lit "admin_office"; lit "main_menu";
   lit "fee_receipt"; lit "admission_details"; lit "academic"].

(** [re.match] of that pattern, [^(a|b|...)$]. *)
Definition menu_match (data : str) : bool :=
  existsb (λ alternative, re_match alternative data) menu_alternatives.

(** Which handler reacted to an update, and what it did. *)
Inductive Reaction :=
| Started (sent : option Menu)
| Helped (sent : option str)
| Navigated (edited : option Menu)
| Conversed (fx : list Effect).

Section Main.
Context `{UnicodeData}.

(** One update through the handlers [main] registers, all in one
    group: the first whose filter accepts the update runs and the
    others are not tried.  The order is [/start], [/help],
    [button_click_handler], the conversation handler. *)
Definition process_update (e : Env) (st : option State) (u : Update)
    (w : World) : World * Reaction * option State :=
  let conversation :=
    let '(w1, fx, st1) := conv_handler e st u w in (w1, Conversed fx, st1) in
  match u with
  | Command c =>
      if bool_decide (c = "start") then (w, Started (start e), st)
      else if bool_decide (c = "help") then (w, Helped (help_command e), st)
      else conversation
  | Callback q =>
      if menu_match (data q) then
        (w, Navigated (button_click_handler e (data q)), st)
      else conversation
  | _ => conversation
  end.

End Main.

End TgBot.

(** ** Vocabulary of the specification *)

Module Spec.
Import Py Firebase TgBot.

(** The closed set of statuses an application can have. *)
Inductive Status := Pending | Approved | Rejected.

Definition status_str (s : Status) : str :=
  match s with
  | Pending => lit "Pending"
  | Approved => lit "Approved"
  | Rejected => lit "Rejected"
  end.

(** Field [k] of the application [id], when both exist. *)
Definition field (apps : node) (id : str) (k : string) : option str :=
  apps !! id ≫= (λ app : record, app !! k).

(** An application as the bot files it. *)
Definition filed (prn name phone batch status submitted_at : str) : record :=
  <["prn" := prn]> (<["name" := name]> (<["phone" := phone]>
    (<["batch" := batch]> (<["status" := status]>
      (<["submitted_at" := submitted_at]> ∅))))).

(** A node with one application, of the given status. *)
Definition one_application (status : str) : node :=
  {[ lit "-NxA1" :=
       filed (lit "12345678") (lit "john smith") (lit "9000000000")
             (lit "2024-28") status (lit "2025-01-01 10:00:00+00:00") ]}.

(** Identifier normalisation as the specification words it: trim,
    then replace every non-ASCII character that is a numeral by its
    ASCII digit. *)
Definition spec_normalize `{UnicodeData} (raw : str) : str :=
  strip raw ≫= (λ ch, if isascii ch then [ch]
                       else match digit ch with
                            | Some d => str_of_int d
                            | None => [ch]
                            end).

Definition eight_ascii_digits (s : str) : Prop :=
  length s = 8%nat ∧ Forall (λ c, 48 ≤ c ≤ 57) s.

(** A string cut at its whitespace: its maximal runs of whitespace
    (marked [true]) and of other characters (marked [false]), in
    order. *)
Fixpoint runs (s : str) : list (bool * str) :=
  match s with
  | [] => []
  | c :: r =>
      match runs r with
      | (b, run) :: rest =>
          if Bool.eqb b (isspace c) then (b, c :: run) :: rest
          else (isspace c, [c]) :: (b, run) :: rest
      | [] => [(isspace c, [c])]
      end
  end.

(** The whitespace runs alone: the spacing of the string. *)
Definition spacing (s : str) : list str :=
  snd <$> List.filter fst (runs s).

(** Two runs agree when both are the same whitespace, character for
    character, or both are words that are equal once in upper case. *)
Definition run_agrees `{UnicodeData} (x y : bool * str) : Prop :=
  x.1 = y.1 ∧ if x.1 then x.2 = y.2 else upper x.2 = upper y.2.

(** Two names are the same when, trimmed, they are cut into runs that
    agree one by one: the same words up to letter case, with the same
    whitespace between them. *)
Definition same_name `{UnicodeData} (a b : str) : Prop :=
  Forall2 run_agrees (runs (strip a)) (runs (strip b)).

(** A run with its word in upper case. *)
Definition upper_run `{UnicodeData} (x : bool * str) : bool * str :=
  (x.1, if x.1 then x.2 else upper x.2).

(** What case conversion does outside ASCII, as far as spacing is
    concerned: a whitespace character has no uppercase form of its
    own, and the uppercase form of any other character is not empty
    and holds no whitespace. *)
Definition upper_respects_spacing (U : UnicodeData) : Prop :=
  ∀ c, isascii c = false →
       if isspace c then ucd_upper c = [c]
       else ucd_upper c ≠ [] ∧ Forall (λ d, isspace d = false) (ucd_upper c).

(** A handler body is quiet when it never files an application. *)
Definition quiet {A} (h : Handler A) : Prop :=
  ∀ w, creates (h w).1.2 = 0%nat.

(** Over the steps of [run]: how many times create was called, and
    how many conversations were opened. *)
Definition filed_in (steps : list (option State * list Effect * option State))
  : nat :=
  sum_list_with (λ step, creates step.1.2) steps.

Definition opened_in (steps : list (option State * list Effect * option State))
  : nat :=
  sum_list_with (λ step, match step with
                         | (None, _, Some _) => 1%nat
                         | _ => 0%nat
                         end) steps.

(** What the user's dictionary holds about the student once the
    identifier was accepted: an identifier of eight ASCII digits and
    the record the directory has under it. *)
Definition identified (dir : node) (ud : UserData) : Prop :=
  ∃ prn sd, ud_prn ud = Some prn ∧ ud_student_data ud = Some sd
            ∧ dir !! prn = Some sd ∧ eight_ascii_digits prn.

(** ... once the name was accepted: a name equal, in upper case, to
    the trimmed name of the record. *)
Definition named `{UnicodeData} (ud : UserData) : Prop :=
  ∃ sd name, ud_student_data ud = Some sd ∧ ud_name ud = Some name
             ∧ upper name = upper (strip (get_or sd "name" (lit ""))).

(** ... once the phone was accepted: the trimmed phone of the record. *)
Definition phoned (ud : UserData) : Prop :=
  ∃ sd, ud_student_data ud = Some sd
        ∧ ud_phone ud = Some (strip (get_or sd "phone" (lit ""))).

(** What each state of the conversation guarantees. *)
Definition verified_so_far `{UnicodeData} (st : option State) (w : World)
  : Prop :=
  match st with
  | None | Some GET_PRN => True
  | Some GET_NAME => identified (student_ref w) (user_data w)
  | Some GET_PHONE =>
      identified (student_ref w) (user_data w) ∧ named (user_data w)
  | Some CONFIRM =>
      identified (student_ref w) (user_data w) ∧ named (user_data w)
      ∧ phoned (user_data w)
  end.

(** A string that starts with no whitespace. *)
Definition clean_head (s : str) : Prop :=
  match s with [] => True | c :: _ => isspace c = false end.

(** A handler body spares the nodes when it leaves both database
    nodes as they are (it may write the user's dictionary). *)
Definition spares_nodes {A} (h : Handler A) : Prop :=
  ∀ w, student_ref (h w).1.1 = student_ref w
       ∧ applications_ref (h w).1.1 = applications_ref w.

(** The replies that report a rejected input. *)
Definition malformed_identifier : str :=
  lit "Invalid PRN. Please enter your 8-digit PRN number (digits only) or type /cancel.".

Definition record_not_found : str :=
  lit "Invalid PRN. That PRN is not found in our database. Please try again or type /cancel to exit.".

Definition name_mismatch (correct_name : str) : str :=
  lit "Invalid input. Name does not match database record ("
  ++ correct_name ++ lit "). Please try again or type /cancel.".

Definition phone_mismatch : str :=
  lit "Invalid input. Phone number does not match our records. Please try again or type /cancel.".

(** The directory of the scenario: one student. *)
Definition john : record :=
  <["name" := lit "John Smith"]> (<["phone" := lit "9000000000"]>
    (<["batch" := lit "2024-28"]> ∅)).

Definition directory : node := {[ lit "12345678" := john ]}.

(** The bot before anyone has used it. *)
Definition fresh : World :=
  {| user_data := no_user_data; student_ref := directory;
     applications_ref := ∅ |}.

(** The bot once John's identifier and name have been accepted. *)
Definition at_phone : World :=
  {| user_data := with_name (lit "john smith")
                    (with_prn (lit "12345678") john no_user_data);
     student_ref := directory; applications_ref := ∅ |}.

(** The bot once the identifier of a student called Jane Doe has
    been accepted. *)
Definition at_name : World :=
  {| user_data :=
       with_prn (lit "87654321")
         (<["name" := lit "Jane Doe"]> (<["phone" := lit "9111111111"]> ∅))
         no_user_data;
     student_ref := directory; applications_ref := ∅ |}.

(** An update during which every request goes through. *)
Definition fine : Env :=
  {| answer_ok := true; send_ok := true; db_ok := true;
     push_key := lit "-NxA1" |}.

Definition press (d : str) : Update :=
  Callback {| data := d; message_chat_id := 4242;
              message_date := lit "2025-01-01 10:00:00+00:00" |}.

(** The event sequence of the scenario. *)
Definition scenario : list (Env * Update) :=
  [ (fine, Text (lit "12345678"));
    (fine, Text (lit "john smith"));
    (fine, Text (lit "9000000001"));
    (fine, Text (lit "9000000000"));
    (fine, press (lit "confirm_yes")) ].

End Spec.

(** ** Properties of web.py *)

Section WebProperties.
Import Py Firebase Web Spec.

Lemma elem_of_statuses (s : str) :
  s ∈ statuses ↔ ∃ st, s = status_str st.
Proof.
  unfold statuses. split.
  - intros Hin. repeat (apply elem_of_cons in Hin as [-> | Hin]).
    + by exists Pending.
    + by exists Approved.
    + by exists Rejected.
    + by apply elem_of_nil in Hin.
  - intros [[] ->]; simpl; set_solver.
Qed.

Lemma child_update_lookup_eq (id : str) (fields : record) (n : node) :
  child_update id fields n !! id = Some (fields ∪ default ∅ (n !! id)).
Proof. unfold child_update. by rewrite lookup_insert_eq. Qed.

Lemma child_update_lookup_ne (id id' : str) (fields : record) (n : node) :
  id ≠ id' → child_update id fields n !! id' = n !! id'.
Proof. intros Hne. unfold child_update. by rewrite lookup_insert_ne. Qed.

(** A field that [update] is not given keeps its value, also when the
    child did not exist. *)
Lemma child_update_field_other (id : str) (fields : record) (n : node)
    (id' : str) (k : string) :
  id ≠ id' ∨ fields !! k = None →
  field (child_update id fields n) id' k = field n id' k.
Proof.
  unfold field. destruct (decide (id = id')) as [<- | Hne].
  - intros [? | Hk]; [done |].
    rewrite child_update_lookup_eq. simpl.
    rewrite lookup_union_r by done.
    destruct (n !! id) as [app |]; simpl; [done | apply lookup_empty].
  - intros _. by rewrite child_update_lookup_ne.
Qed.

Lemma status_fields_lookup (s now : str) (k : string) :
  (<["status" := s]> (<["processed_at" := now]> (∅ : record))) !! k =
  if decide (k = "status") then Some s
  else if decide (k = "processed_at") then Some now else None.
Proof.
  repeat case_decide; subst; simplify_map_eq; done.
Qed.

(** What [process_application] does with a status of the closed set
    while the database answers. *)
Lemma process_application_accepted
    (now app_id : str) (form_status : option str) (apps : node) (st : Status) :
  strip (default (lit "") form_status) = status_str st →
  process_application true now app_id form_status apps =
    (child_update app_id
       (<["status" := status_str st]> (<["processed_at" := now]> ∅)) apps,
     [{| message := lit "Application " ++ app_id
                    ++ lit " status updated to " ++ status_str st ++ lit ".";
         category := "success" |}],
     Redirect "view_application" (Some app_id)).
Proof.
  intros Hst. unfold process_application. rewrite Hst.
  rewrite bool_decide_false; [done |].
  intros Hnot. apply Hnot, elem_of_statuses. by exists st.
Qed.

(** The same while the database request raises. *)
Lemma process_application_db_down
    (now app_id : str) (form_status : option str) (apps : node) (st : Status) :
  strip (default (lit "") form_status) = status_str st →
  process_application false now app_id form_status apps =
    (apps,
     [{| message := lit "Failed to update application in database.";
         category := "danger" |}],
     Redirect "view_application" (Some app_id)).
Proof.
  intros Hst. unfold process_application. rewrite Hst.
  rewrite bool_decide_false; [done |].
  intros Hnot. apply Hnot, elem_of_statuses. by exists st.
Qed.

(** C5, as the specification states it, fails: the target status
    " Approved ", with a space on either side, is none of Pending,
    Approved, Rejected, yet the request is not rejected: it is flashed
    as a success and the record is written, with status Approved. *)
Lemma process_application_accepts_padded_status :
  (lit " Approved " ∉ statuses)
  ∧ (∀ st, lit " Approved " ≠ status_str st)
  ∧ process_application true (lit "2025-01-02T08:00:00") (lit "-NxA1")
      (Some (lit " Approved ")) (one_application (lit "Pending")) =
      ({[ lit "-NxA1" :=
            <["processed_at" := lit "2025-01-02T08:00:00"]>
              (filed (lit "12345678") (lit "john smith") (lit "9000000000")
                     (lit "2024-28") (lit "Approved")
                     (lit "2025-01-01 10:00:00+00:00")) ]},
       [{| message := lit "Application -NxA1 status updated to Approved.";
           category := "success" |}],
       Redirect "view_application" (Some (lit "-NxA1")))
  ∧ one_application (lit "Pending")
    ≠ {[ lit "-NxA1" :=
           <["processed_at" := lit "2025-01-02T08:00:00"]>
             (filed (lit "12345678") (lit "john smith") (lit "9000000000")
                    (lit "2024-28") (lit "Approved")
                    (lit "2025-01-01 10:00:00+00:00")) ]}.
Proof.
  assert (Hnot : ∀ st, lit " Approved " ≠ status_str st)
    by (intros []; vm_compute; discriminate).
  split; [| split; [exact Hnot | split]].
  - intros [st Hst]%elem_of_statuses. by apply (Hnot st).
  - vm_compute. reflexivity.
  - intros Heq.
    apply (f_equal (λ n : node, field n (lit "-NxA1") "status")) in Heq.
    vm_compute in Heq. discriminate Heq.
Qed.

(** C5, amended: a status update whose target status, once the
    surrounding whitespace of the form field is stripped, is none of
    Pending, Approved, Rejected (an absent field counts as the empty
    string) is answered with the message "Invalid status." flashed in
    category error, and the applications node is returned as it was,
    whether or not the database is reachable: no field of any record
    is written. *)
Theorem process_application_rejects_unknown_status
    (db_ok : bool) (now app_id : str) (form_status : option str)
    (apps : node) :
  (∀ st, strip (default (lit "") form_status) ≠ status_str st) →
  process_application db_ok now app_id form_status apps =
    (apps,
     [{| message := lit "Invalid status."; category := "error" |}],
     Redirect "view_application" (Some app_id)).
Proof.
  intros Hnone. unfold process_application.
  rewrite bool_decide_true; [done |].
  intros [st Hst]%elem_of_statuses. by apply (Hnone st).
Qed.

Lemma process_application_rejects_unknown_status_witness :
  process_application true (lit "2025-01-02T08:00:00") (lit "-NxA1")
    (Some (lit "Done")) (one_application (lit "Pending")) =
    (one_application (lit "Pending"),
     [{| message := lit "Invalid status."; category := "error" |}],
     Redirect "view_application" (Some (lit "-NxA1"))).
Proof.
  apply (process_application_rejects_unknown_status true).
  intros []; vm_compute; discriminate.
Defined.

(** C6: an accepted status update leaves every application other
    than the addressed one as it was and, in the addressed one, every
    field other than status and processed_at, in particular prn, name,
    phone and batch; and setting an Approved application to Approved
    again, with the database reachable, is reported as a success and
    the status is still Approved. *)
Theorem process_application_frame
    (db_ok : bool) (now app_id : str) (form_status : option str)
    (apps : node) (st : Status) :
  strip (default (lit "") form_status) = status_str st →
  let '(apps', flashed, _) :=
    process_application db_ok now app_id form_status apps in
  (∀ id, id ≠ app_id → apps' !! id = apps !! id)
  ∧ (∀ id k, id ≠ app_id ∨ (k ≠ "status" ∧ k ≠ "processed_at") →
       field apps' id k = field apps id k)
  ∧ Forall (λ k, field apps' app_id k = field apps app_id k)
      ["prn"; "name"; "phone"; "batch"]
  ∧ (db_ok = true → st = Approved →
     field apps app_id "status" = Some (lit "Approved") →
     field apps' app_id "status" = Some (lit "Approved")
     ∧ flashed =
         [{| message := lit "Application " ++ app_id
                        ++ lit " status updated to Approved.";
             category := "success" |}]).
Proof.
  intros Hst. destruct db_ok.
  - rewrite (process_application_accepted _ _ _ _ st Hst).
    assert (Hframe : ∀ id k,
      id ≠ app_id ∨ (k ≠ "status" ∧ k ≠ "processed_at") →
      field (child_update app_id
               (<["status" := status_str st]> (<["processed_at" := now]> ∅))
               apps) id k = field apps id k).
    { intros id k Hor. apply child_update_field_other.
      destruct Hor as [Hne | [Hk1 Hk2]]; [left; congruence | right].
      rewrite status_fields_lookup. by repeat case_decide. }
    split; [| split; [| split]].
    + intros id Hne. by apply child_update_lookup_ne.
    + exact Hframe.
    + repeat constructor; apply Hframe; right; done.
    + intros _ -> _. split; [| done].
      unfold field. rewrite child_update_lookup_eq. simpl.
      apply lookup_union_Some_l. by rewrite lookup_insert_eq.
  - rewrite (process_application_db_down _ _ _ _ st Hst).
    split; [done |]. split; [done |]. split; [| done].
    repeat constructor.
Qed.

Lemma process_application_frame_witness :
  field
    (process_application true (lit "2025-01-03T09:30:00") (lit "-NxA1")
       (Some (lit "Approved")) (one_application (lit "Approved"))).1.1
    (lit "-NxA1") "name" = Some (lit "john smith").
Proof.
  pose proof (process_application_frame true (lit "2025-01-03T09:30:00")
                (lit "-NxA1") (Some (lit "Approved"))
                (one_application (lit "Approved")) Approved) as Hframe.
  destruct (process_application true (lit "2025-01-03T09:30:00") (lit "-NxA1")
              (Some (lit "Approved")) (one_application (lit "Approved")))
    as [[apps' flashed] resp].
  destruct Hframe as (_ & Hfield & _); [vm_compute; reflexivity |].
  simpl. rewrite Hfield; [vm_compute; reflexivity | right; done].
Defined.

(** C3, as the specification states it, fails: approving the one
    Pending application leaves a record with the six fields it was
    filed with and processed_at; no field names an administrator. *)
Lemma process_application_stamps_no_actor :
  let '(apps', _, _) :=
    process_application true (lit "2025-01-02T08:00:00") (lit "-NxA1")
      (Some (lit "Approved")) (one_application (lit "Pending")) in
  apps' !! lit "-NxA1" =
    Some (<["processed_at" := lit "2025-01-02T08:00:00"]>
            (filed (lit "12345678") (lit "john smith") (lit "9000000000")
                   (lit "2024-28") (lit "Approved")
                   (lit "2025-01-01 10:00:00+00:00")))
  ∧ ¬ (is_Some (field apps' (lit "-NxA1") "processed_by")
       ∧ is_Some (field apps' (lit "-NxA1") "processed_at")).
Proof.
  vm_compute. split; [reflexivity |].
  intros [[who Hwho] _]. discriminate Hwho.
Qed.

(** C3, amended: an accepted status update that the database carries
    out stamps the addressed record with the new status and with
    processed_at, the time of the request; every other field of the
    record is as before, so nothing records who processed it. *)
Theorem process_application_stamps_processed_at
    (now app_id : str) (form_status : option str) (apps : node)
    (st : Status) :
  strip (default (lit "") form_status) = status_str st →
  let '(apps', _, _) :=
    process_application true now app_id form_status apps in
  field apps' app_id "status" = Some (status_str st)
  ∧ field apps' app_id "processed_at" = Some now
  ∧ ∀ k, k ≠ "status" → k ≠ "processed_at" →
         field apps' app_id k = field apps app_id k.
Proof.
  intros Hst. rewrite (process_application_accepted _ _ _ _ st Hst).
  unfold field at 1 2. rewrite child_update_lookup_eq. simpl.
  split; [| split].
  - apply lookup_union_Some_l. by rewrite lookup_insert_eq.
  - apply lookup_union_Some_l.
    rewrite lookup_insert_ne by done. by rewrite lookup_insert_eq.
  - intros k Hk1 Hk2. apply child_update_field_other. right.
    rewrite status_fields_lookup. by repeat case_decide.
Qed.

Lemma process_application_stamps_processed_at_witness :
  field
    (process_application true (lit "2025-01-02T08:00:00") (lit "-NxA1")
       (Some (lit " Rejected ")) (one_application (lit "Pending"))).1.1
    (lit "-NxA1") "processed_at" = Some (lit "2025-01-02T08:00:00").
Proof.
  pose proof (process_application_stamps_processed_at
                (lit "2025-01-02T08:00:00") (lit "-NxA1")
                (Some (lit " Rejected ")) (one_application (lit "Pending"))
                Rejected) as Hstamp.
  destruct (process_application true (lit "2025-01-02T08:00:00") (lit "-NxA1")
              (Some (lit " Rejected ")) (one_application (lit "Pending")))
    as [[apps' flashed] resp].
  destruct Hstamp as (_ & Hat & _); [vm_compute; reflexivity |].
  exact Hat.
Defined.

(** C4: [print_bonafide] sends the certificate only for an
    application whose stored status is Approved; with the database
    reachable, an existing application of any other status (or of
    none) is answered "Application not approved" (403) and nothing of
    the record is sent, and an identifier with no application is
    answered "Application not found" (404), a different answer. *)
Theorem print_bonafide_gate
    (db_ok render_ok : bool) (today app_id : str) (apps : node) :
  (∀ file drawn,
     print_bonafide db_ok render_ok today app_id apps = SendFile file drawn →
     field apps app_id "status" = Some (status_str Approved))
  ∧ (∀ app, apps !! app_id = Some app → app ≠ ∅ →
       app !! "status" ≠ Some (status_str Approved) →
       print_bonafide true render_ok today app_id apps =
         Body "Application not approved" 403)
  ∧ (apps !! app_id = None →
       print_bonafide true render_ok today app_id apps =
         Body "Application not found" 404)
  ∧ Body "Application not found" 404 ≠ Body "Application not approved" 403.
Proof.
  unfold print_bonafide, child_get, truthy, field. simpl.
  split; [| split; [| split]].
  - intros file drawn. destruct db_ok; simpl; [| discriminate].
    destruct (apps !! app_id) as [app |]; simpl; [| discriminate].
    destruct (bool_decide (app = ∅)); simpl; [discriminate |].
    case_bool_decide as Hst; [discriminate |].
    intros _. exact Hst.
  - intros app -> Hne Hst. simpl.
    rewrite (bool_decide_false (app = ∅)) by done. simpl.
    by rewrite bool_decide_true.
  - by intros ->.
  - discriminate.
Qed.

Lemma print_bonafide_gate_witness :
  print_bonafide true true (lit "02 / 01 / 2025") (lit "-NxA1")
    (one_application (lit "Rejected")) = Body "Application not approved" 403
  ∧ print_bonafide true true (lit "02 / 01 / 2025") (lit "-NxB2")
      (one_application (lit "Rejected")) = Body "Application not found" 404
  ∧ field (one_application (lit "Approved")) (lit "-NxA1") "status" =
      Some (status_str Approved).
Proof.
  split; [| split].
  - destruct (print_bonafide_gate true true (lit "02 / 01 / 2025")
                (lit "-NxA1") (one_application (lit "Rejected")))
      as (_ & Hother & _).
    apply (Hother (filed (lit "12345678") (lit "john smith")
                     (lit "9000000000") (lit "2024-28") (lit "Rejected")
                     (lit "2025-01-01 10:00:00+00:00")));
      vm_compute; [reflexivity | discriminate | discriminate].
  - destruct (print_bonafide_gate true true (lit "02 / 01 / 2025")
                (lit "-NxB2") (one_application (lit "Rejected")))
      as (_ & _ & Hmissing & _).
    apply Hmissing. vm_compute. reflexivity.
  - destruct (print_bonafide_gate true true (lit "02 / 01 / 2025")
                (lit "-NxA1") (one_application (lit "Approved")))
      as (Hsent & _).
    eapply Hsent. vm_compute. reflexivity.
Defined.

(** C9, on the code: a status update addressed to an identifier with
    no application is not refused; it is reported as a success and
    the node gains a record under that identifier, made of status and
    processed_at alone. *)
Theorem process_application_creates_missing (now : str) :
  one_application (lit "Pending") !! lit "-NxB2" = None
  ∧ process_application true now (lit "-NxB2") (Some (lit "Approved"))
      (one_application (lit "Pending")) =
      (<[lit "-NxB2" :=
           <["status" := lit "Approved"]> (<["processed_at" := now]> ∅)]>
         (one_application (lit "Pending")),
       [{| message := lit "Application -NxB2 status updated to Approved.";
           category := "success" |}],
       Redirect "view_application" (Some (lit "-NxB2"))).
Proof.
  assert (Hnone : one_application (lit "Pending") !! lit "-NxB2" = None)
    by (vm_compute; reflexivity).
  split; [exact Hnone |].
  rewrite (process_application_accepted _ _ _ _ Approved)
    by (vm_compute; reflexivity).
  unfold child_update. rewrite Hnone. simpl.
  by rewrite (right_id_L ∅ (∪)).
Qed.

End WebProperties.

(** ** Properties of TgBot.py *)

(** *** Which handler bodies can file an application *)

Section Quiet.
Import Py Firebase TgBot Spec.
Local Open Scope handler_scope.

Lemma creates_app (a b : list Effect) :
  creates (a ++ b) = (creates a + creates b)%nat.
Proof. unfold creates. by rewrite List.filter_app, length_app. Qed.

Lemma creates_elem (d : record) (fx : list Effect) :
  Create d ∈ fx → (0 < creates fx)%nat.
Proof.
  induction fx as [| x fx IH]; intros Hin.
  - by apply elem_of_nil in Hin.
  - apply elem_of_cons in Hin as [<- | Hin]; unfold creates in *; simpl.
    + lia.
    + specialize (IH Hin). destruct (is_create x); simpl; lia.
Qed.

Lemma quiet_ret {A} (a : A) : quiet (ret a).
Proof. by intros w. Qed.

Lemma quiet_raise {A} : quiet (@raise A).
Proof. by intros w. Qed.

Lemma quiet_get_user_data : quiet get_user_data.
Proof. by intros w. Qed.

Lemma quiet_set_user_data (f : UserData → UserData) : quiet (set_user_data f).
Proof. by intros w. Qed.

Lemma quiet_send (e : Env) (text : str) : quiet (send e text).
Proof. intros w. unfold send. by destruct (send_ok e). Qed.

Lemma quiet_answer (e : Env) : quiet (answer e).
Proof. intros w. unfold answer. by destruct (answer_ok e). Qed.

Lemma quiet_students_get (e : Env) (key : str) : quiet (students_get e key).
Proof. intros w. unfold students_get. by destruct (db_ok e). Qed.

Lemma quiet_bind {A B} (m : Handler A) (k : A → Handler B) :
  quiet m → (∀ a, quiet (k a)) → quiet (bind m k).
Proof.
  intros Hm Hk w. unfold bind. specialize (Hm w).
  destruct (m w) as [[w1 fx1] [a |]]; simpl in *; [| done].
  specialize (Hk a w1). destruct (k a w1) as [[w2 fx2] r2]; simpl in *.
  rewrite creates_app. lia.
Qed.

Lemma quiet_attempt {A} (m : Handler A) : quiet m → quiet (attempt m).
Proof.
  intros Hm w. unfold attempt. specialize (Hm w).
  by destruct (m w) as [[w1 fx1] r].
Qed.

Create HintDb quiet.
#[local] Hint Resolve quiet_ret quiet_raise quiet_get_user_data
  quiet_set_user_data quiet_send quiet_answer quiet_students_get
  quiet_attempt : quiet.

Ltac quiet_steps :=
  repeat first
    [ apply quiet_bind; [| intros ?]
    | progress eauto with quiet
    | match goal with
      | |- quiet (match ?x with _ => _ end) => destruct x
      | |- quiet (if ?b then _ else _) => destruct b
      end ].

Context `{UnicodeData}.

Lemma quiet_start_bonafide_flow (e : Env) (u : Update) :
  quiet (start_bonafide_flow e u).
Proof. unfold start_bonafide_flow. quiet_steps. Qed.

Lemma quiet_get_prn (e : Env) (raw : str) : quiet (get_prn e raw).
Proof. unfold get_prn. quiet_steps. Qed.

Lemma quiet_get_name (e : Env) (text : str) : quiet (get_name e text).
Proof. unfold get_name. quiet_steps. Qed.

Lemma quiet_get_phone (e : Env) (text : str) : quiet (get_phone e text).
Proof. unfold get_phone. quiet_steps. Qed.

Lemma quiet_cancel (e : Env) (u : Update) : quiet (cancel e u).
Proof. unfold cancel. quiet_steps. Qed.

Lemma quiet_fallbacks (e : Env) (u : Update) (h : Handler Next) :
  fallbacks e u = Some h → quiet h.
Proof.
  unfold fallbacks. intros Hsel.
  destruct u; try discriminate;
    match type of Hsel with (if ?b then _ else _) = _ => destruct b end;
    try discriminate; injection Hsel as <-; apply quiet_cancel.
Qed.

(** Every callback the conversation can pick is quiet, except
    [confirm_submission] in [CONFIRM]. *)
Lemma select_quiet (e : Env) (st : option State) (u : Update)
    (h : Handler Next) :
  select e st u = Some h →
  quiet h ∨ (st = Some CONFIRM ∧ ∃ q, u = Callback q ∧ h = confirm_submission e q).
Proof.
  unfold select. intros Hsel.
  destruct st as [[] |].
  - destruct u; try (left; by eapply quiet_fallbacks).
    injection Hsel as <-. left. apply quiet_get_prn.
  - destruct u; try (left; by eapply quiet_fallbacks).
    injection Hsel as <-. left. apply quiet_get_name.
  - destruct u; try (left; by eapply quiet_fallbacks).
    injection Hsel as <-. left. apply quiet_get_phone.
  - destruct u; try (left; by eapply quiet_fallbacks).
    match type of Hsel with (if ?b then _ else _) = _ => destruct b end.
    + injection Hsel as <-. right. eauto.
    + left. by eapply quiet_fallbacks.
  - destruct u as [| | q |]; try discriminate.
    match type of Hsel with (if ?b then _ else _) = _ => destruct b end;
      [| discriminate].
    injection Hsel as <-. left.
    exact (quiet_start_bonafide_flow e (Callback q)).
Qed.

(** [confirm_submission] files an application only when the query
    was answered and its data is [confirm_yes]; it then files one and
    returns [END], whatever the database and the transport do. *)
Lemma confirm_submission_create (e : Env) (q : Query) (w : World) (d : record) :
  Create d ∈ (confirm_submission e q w).1.2 →
  answer_ok e = true ∧ data q = lit "confirm_yes"
  ∧ (confirm_submission e q w).2 = Some END
  ∧ creates (confirm_submission e q w).1.2 = 1%nat.
Proof.
  unfold confirm_submission, bind, answer, finally_return, try_except,
    get_user_data, applications_push_set, send, ret.
  destruct (answer_ok e); simpl; [| by intros ?%elem_of_nil].
  case_bool_decide as Hdata; simpl.
  - destruct (db_ok e), (send_ok e); simpl; intros _; done.
  - destruct (send_ok e); simpl; intros Hin.
    + apply elem_of_cons in Hin as [? | ?%elem_of_nil]; done.
    + by apply elem_of_nil in Hin.
Qed.

End Quiet.

(** *** Filing an application *)

(** Over a whole stream of updates, create is called at most once
    per conversation: at most as often as conversations were opened,
    counting the one under way at the start. *)
Lemma run_filed_le_opened `{Py.UnicodeData}
    (Hstep : ∀ e st u w,
       TgBot.creates (TgBot.conv_handler e st u w).1.2 = 0%nat
       ∨ (st ≠ None ∧ (TgBot.conv_handler e st u w).2 = None
          ∧ TgBot.creates (TgBot.conv_handler e st u w).1.2 = 1%nat))
    (st : option TgBot.State) (w : TgBot.World)
    (updates : list (TgBot.Env * TgBot.Update)) :
  (Spec.filed_in (TgBot.run st w updates)
   ≤ Spec.opened_in (TgBot.run st w updates)
     + match st with Some _ => 1 | None => 0 end)%nat.
Proof.
  revert st w. induction updates as [| [e u] rest IH]; intros st w; simpl;
    [unfold Spec.filed_in, Spec.opened_in; simpl; lia |].
  specialize (Hstep e st u w).
  destruct (TgBot.conv_handler e st u w) as [[w1 fx] st1]. simpl in Hstep.
  specialize (IH st1 w1).
  unfold Spec.filed_in, Spec.opened_in in *. simpl.
  destruct Hstep as [-> | (Hlive & -> & ->)].
  - destruct st as [s |], st1 as [s1 |]; simpl in *; lia.
  - destruct st as [s |]; [| done]. simpl in *. lia.
Qed.

(** C1: the handling of an update calls the repository's create only
    when the conversation is in CONFIRM and the update is the callback
    query whose data is confirm_yes; that handling calls it once and
    ends the conversation, whether the database accepts the record or
    raises and whether the reply can be sent; so a session, from any
    state and over any sequence of updates, calls create at most once,
    with no conversation under way no update calls it, and over all
    the updates of a user create is called at most as many times as
    conversations were opened. *)
Theorem create_at_most_once `{Py.UnicodeData} :
  (∀ e st u w d,
     TgBot.Create d ∈ (TgBot.conv_handler e st u w).1.2 →
     st = Some TgBot.CONFIRM
     ∧ (∃ q, u = TgBot.Callback q ∧ TgBot.data q = Py.lit "confirm_yes")
     ∧ (TgBot.conv_handler e st u w).2 = None
     ∧ TgBot.creates (TgBot.conv_handler e st u w).1.2 = 1%nat)
  ∧ (∀ s w updates, (TgBot.creates (TgBot.session s w updates).1.2 ≤ 1)%nat)
  ∧ (∀ e u w, TgBot.creates (TgBot.conv_handler e None u w).1.2 = 0%nat)
  ∧ (∀ w updates,
       (Spec.filed_in (TgBot.run None w updates)
        ≤ Spec.opened_in (TgBot.run None w updates))%nat).
Proof.
  assert (Hstep : ∀ e st u w d,
     TgBot.Create d ∈ (TgBot.conv_handler e st u w).1.2 →
     st = Some TgBot.CONFIRM
     ∧ (∃ q, u = TgBot.Callback q ∧ TgBot.data q = Py.lit "confirm_yes")
     ∧ (TgBot.conv_handler e st u w).2 = None
     ∧ TgBot.creates (TgBot.conv_handler e st u w).1.2 = 1%nat).
  { intros e st u w d. unfold TgBot.conv_handler.
    destruct (TgBot.select e st u) as [h |] eqn:Hsel; simpl;
      [| by intros ?%elem_of_nil].
    destruct (select_quiet _ _ _ _ Hsel) as [Hq | (-> & q & -> & ->)].
    - specialize (Hq w). destruct (h w) as [[w1 fx] r]; simpl in *.
      intros Hin%creates_elem. lia.
    - pose proof (confirm_submission_create e q w d) as Hc.
      destruct (TgBot.confirm_submission e q w) as [[w1 fx] r]; simpl in *.
      intros Hin. destruct (Hc Hin) as (_ & Hdata & -> & Hone).
      eauto 6. }
  assert (Hquiet : ∀ e u w,
     TgBot.creates (TgBot.conv_handler e None u w).1.2 = 0%nat).
  { intros e u w. unfold TgBot.conv_handler.
    destruct (TgBot.select e None u) as [h |] eqn:Hsel; simpl; [| done].
    destruct (select_quiet _ _ _ _ Hsel) as [Hq | (? & _)]; [| done].
    specialize (Hq w). by destruct (h w) as [[w1 fx] r]. }
  assert (Hcases : ∀ e st u w,
     TgBot.creates (TgBot.conv_handler e st u w).1.2 = 0%nat
     ∨ (st ≠ None ∧ (TgBot.conv_handler e st u w).2 = None
        ∧ TgBot.creates (TgBot.conv_handler e st u w).1.2 = 1%nat)).
  { intros e st u w. pose proof (Hstep e st u w) as Hone.
    destruct (TgBot.conv_handler e st u w) as [[w1 fx1] st1]. simpl in *.
    destruct (List.filter TgBot.is_create fx1) as [| x l] eqn:Hfilter.
    - left. unfold TgBot.creates. by rewrite Hfilter.
    - right. assert (Hx : In x (List.filter TgBot.is_create fx1))
        by (rewrite Hfilter; by left).
      apply List.filter_In in Hx as [Hx Hcreate].
      destruct x as [| d]; [discriminate |].
      apply list_elem_of_In in Hx.
      destruct (Hone d Hx) as (-> & _ & ? & ?). done. }
  split; [exact Hstep |]. split; [| split; [exact Hquiet |]].
  - intros s w updates. revert s w.
    induction updates as [| [e u] rest IH]; intros s w; simpl;
      [unfold TgBot.creates; simpl; lia |].
    pose proof (Hcases e (Some s) u w) as Hone.
    destruct (TgBot.conv_handler e (Some s) u w) as [[w1 fx1] st].
    simpl in Hone.
    destruct Hone as [Hzero | (_ & -> & Hsingle)].
    + destruct st as [s1 |]; simpl; [| lia].
      specialize (IH s1 w1).
      destruct (TgBot.session s1 w1 rest) as [[w2 fx2] st2]; simpl in *.
      rewrite creates_app. lia.
    + simpl. lia.
  - intros w updates.
    pose proof (run_filed_le_opened Hcases None w updates) as Hle.
    simpl in Hle. lia.
Qed.

Lemma create_at_most_once_witness :
  (TgBot.conv_handler (H := Py.sample_unicode) Spec.fine (Some TgBot.CONFIRM)
     (Spec.press (Py.lit "confirm_yes")) Spec.at_phone).2 = None.
Proof.
  destruct (create_at_most_once (H := Py.sample_unicode)) as (Hstep & _).
  eapply Hstep. vm_compute. constructor.
Defined.

(** C2, as the specification states it, fails: the scenario files one
    application, but the name stored in it is the name as the
    requester typed it, "john smith", not the directory's
    "John Smith". *)
Lemma scenario_stores_typed_name :
  let '(w, fx, st) :=
    TgBot.session (H := Py.sample_unicode) TgBot.GET_PRN Spec.fresh
      Spec.scenario in
  ∃ d, List.filter TgBot.is_create fx = [TgBot.Create d]
       ∧ TgBot.applications_ref w = {[ Py.lit "-NxA1" := d ]}
       ∧ d !! "name" = Some (Py.lit "john smith")
       ∧ d !! "name" ≠ Some (Py.lit "John Smith").
Proof.
  vm_compute. eexists. split; [reflexivity |]. split; [reflexivity |].
  split; [reflexivity | discriminate].
Qed.

(** C2, amended: in the scenario the identifier and the name are
    accepted, the first phone is rejected with the phone-mismatch reply
    and the conversation stays in GET_PHONE, the second phone is
    accepted, and the confirmation ends the conversation after exactly
    one create, whose record holds prn "12345678", the name as typed,
    "john smith", phone "9000000000", batch "2024-28" and status
    Pending, and is the one record of the applications node. *)
Theorem scenario_files_one_application `{Py.UnicodeData} :
  (TgBot.session TgBot.GET_PRN Spec.fresh (take 1 Spec.scenario)).2
    = Some TgBot.GET_NAME
  ∧ (TgBot.session TgBot.GET_PRN Spec.fresh (take 2 Spec.scenario)).2
    = Some TgBot.GET_PHONE
  ∧ (TgBot.session TgBot.GET_PRN Spec.fresh (take 3 Spec.scenario)).2
    = Some TgBot.GET_PHONE
  ∧ last (TgBot.session TgBot.GET_PRN Spec.fresh (take 3 Spec.scenario)).1.2
    = Some (TgBot.Say Spec.phone_mismatch)
  ∧ (TgBot.session TgBot.GET_PRN Spec.fresh (take 4 Spec.scenario)).2
    = Some TgBot.CONFIRM
  ∧ let '(w, fx, st) :=
      TgBot.session TgBot.GET_PRN Spec.fresh Spec.scenario in
    let filed :=
      Spec.filed (Py.lit "12345678") (Py.lit "john smith")
        (Py.lit "9000000000") (Py.lit "2024-28")
        (Spec.status_str Spec.Pending) (Py.lit "2025-01-01 10:00:00+00:00") in
    st = None
    ∧ List.filter TgBot.is_create fx = [TgBot.Create filed]
    ∧ TgBot.applications_ref w = {[ Py.lit "-NxA1" := filed ]}.
Proof.
  repeat split; vm_compute; reflexivity.
Qed.

(** *** Phone verification *)

(** What [get_phone] does once [student_data] is known. *)
Lemma get_phone_run `{Py.UnicodeData} (e : TgBot.Env) (text : Py.str)
    (w : TgBot.World) (sd : Firebase.record) :
  TgBot.ud_student_data (TgBot.user_data w) = Some sd →
  TgBot.conv_handler e (Some TgBot.GET_PHONE) (TgBot.Text text) w =
    if bool_decide (Py.strip text
                    ≠ Py.strip (Firebase.get_or sd "phone" (Py.lit ""))) then
      (w, if TgBot.send_ok e then [TgBot.Say Spec.phone_mismatch] else [],
       Some TgBot.GET_PHONE)
    else
      ({| TgBot.user_data :=
            TgBot.with_phone (Py.strip text) (TgBot.user_data w);
          TgBot.student_ref := TgBot.student_ref w;
          TgBot.applications_ref := TgBot.applications_ref w |},
       if TgBot.send_ok e then
         [TgBot.Say (Py.lit "All details verified." ++ [10]
            ++ Py.lit "Are you sure you want to submit the application for a bonafide certificate?")]
       else [],
       if TgBot.send_ok e then Some TgBot.CONFIRM else Some TgBot.GET_PHONE).
Proof.
  intros Hsd.
  unfold TgBot.conv_handler, TgBot.select, TgBot.get_phone, TgBot.bind,
    TgBot.get_user_data, TgBot.set_user_data, TgBot.send, TgBot.ret.
  rewrite Hsd. case_bool_decide; destruct (TgBot.send_ok e); reflexivity.
Qed.

(** C7, as the specification states it, fails: a submitted phone
    that differs from the registered one by surrounding whitespace,
    on either side, is accepted. *)
Lemma get_phone_accepts_padded_phone :
  ((TgBot.conv_handler (H := Py.sample_unicode) Spec.fine
      (Some TgBot.GET_PHONE) (TgBot.Text (Py.lit " 9000000000"))
      Spec.at_phone).2 = Some TgBot.CONFIRM
   ∧ Spec.john !! "phone" = Some (Py.lit "9000000000")
   ∧ Py.lit " 9000000000" ≠ Py.lit "9000000000")
  ∧ ((TgBot.conv_handler (H := Py.sample_unicode) Spec.fine
        (Some TgBot.GET_PHONE) (TgBot.Text (Py.lit "9000000000"))
        {| TgBot.user_data :=
             TgBot.with_prn (Py.lit "12345678")
               (<["phone" := Py.lit "9000000000 "]> Spec.john)
               TgBot.no_user_data;
           TgBot.student_ref := Spec.directory;
           TgBot.applications_ref := ∅ |}).2 = Some TgBot.CONFIRM
     ∧ Py.lit "9000000000" ≠ Py.lit "9000000000 ").
Proof.
  vm_compute. repeat split; discriminate.
Qed.

(** C7, amended: [get_phone] moves the conversation to CONFIRM exactly
    when the submitted phone and the registered phone are equal once
    the whitespace around each is stripped (and the reply can be
    sent), and it then keeps the stripped phone; otherwise the reply
    is the phone-mismatch message and the conversation stays in
    GET_PHONE with nothing changed; "9876543210" is so rejected
    against a registered "09876543210". *)
Theorem get_phone_compares_stripped `{Py.UnicodeData}
    (e : TgBot.Env) (w : TgBot.World) (sd : Firebase.record) :
  TgBot.ud_student_data (TgBot.user_data w) = Some sd →
  (∀ text,
     let registered := Firebase.get_or sd "phone" (Py.lit "") in
     let '(w', fx, st) :=
       TgBot.conv_handler e (Some TgBot.GET_PHONE) (TgBot.Text text) w in
     (st = Some TgBot.CONFIRM ↔
        Py.strip text = Py.strip registered ∧ TgBot.send_ok e = true)
     ∧ (Py.strip text = Py.strip registered →
        TgBot.ud_phone (TgBot.user_data w') = Some (Py.strip text))
     ∧ (Py.strip text ≠ Py.strip registered →
        st = Some TgBot.GET_PHONE ∧ w' = w
        ∧ fx = if TgBot.send_ok e then [TgBot.Say Spec.phone_mismatch]
               else []))
  ∧ (sd !! "phone" = Some (Py.lit "09876543210") →
     TgBot.conv_handler e (Some TgBot.GET_PHONE)
       (TgBot.Text (Py.lit "9876543210")) w =
       (w, if TgBot.send_ok e then [TgBot.Say Spec.phone_mismatch] else [],
        Some TgBot.GET_PHONE)).
Proof.
  intros Hsd. split.
  - intros text. simpl. rewrite (get_phone_run e text w sd Hsd).
    case_bool_decide as Hcmp.
    + split; [| split].
      * split; [discriminate | intros [? _]; done].
      * done.
      * done.
    + split; [| split].
      * destruct (TgBot.send_ok e); split; try done.
        -- intros [_ ?]; done.
      * done.
      * done.
  - intros Hphone. rewrite (get_phone_run e _ w sd Hsd).
    unfold Firebase.get_or. rewrite Hphone.
    rewrite bool_decide_true; [done |]. vm_compute. discriminate.
Qed.

Lemma get_phone_compares_stripped_witness :
  TgBot.conv_handler (H := Py.sample_unicode) Spec.fine
    (Some TgBot.GET_PHONE) (TgBot.Text (Py.lit "9000000001")) Spec.at_phone
  = (Spec.at_phone, [TgBot.Say Spec.phone_mismatch], Some TgBot.GET_PHONE).
Proof.
  destruct (get_phone_compares_stripped (H := Py.sample_unicode) Spec.fine
              Spec.at_phone Spec.john) as [Hall _]; [reflexivity |].
  specialize (Hall (Py.lit "9000000001")). simpl in Hall.
  destruct (TgBot.conv_handler Spec.fine (Some TgBot.GET_PHONE)
              (TgBot.Text (Py.lit "9000000001")) Spec.at_phone)
    as [[w' fx] st].
  destruct Hall as (_ & _ & Hrej).
  destruct Hrej as (-> & -> & ->); [vm_compute; discriminate |].
  reflexivity.
Defined.

(** *** Identifier validation *)

Section Identifier.
Import Py Firebase TgBot Spec.
Context `{UnicodeData}.

Lemma uint_str_digits (u : Decimal.uint) :
  Forall (λ c, 48 ≤ c ≤ 57) (uint_str u).
Proof. induction u; simpl; constructor; try done; lia. Qed.

Lemma str_of_int_digit (c : N) : 48 ≤ c ≤ 57 → str_of_int (c - 48) = [c].
Proof.
  intros Hc.
  assert (Hcases : c = 48 ∨ c = 49 ∨ c = 50 ∨ c = 51 ∨ c = 52 ∨ c = 53
                   ∨ c = 54 ∨ c = 55 ∨ c = 56 ∨ c = 57) by lia.
  repeat destruct Hcases as [-> | Hcases]; try subst c; reflexivity.
Qed.

(** On an ASCII character the rewriting loop changes nothing. *)
Lemma converted_ascii (ch : N) :
  isascii ch = true →
  match digit ch with Some d => str_of_int d | None => [ch] end = [ch].
Proof.
  intros Hascii. unfold digit. rewrite Hascii.
  destruct ((48 <=? ch) && (ch <=? 57)) eqn:Hdigit; [| done].
  apply str_of_int_digit.
  apply andb_true_iff in Hdigit as [?%N.leb_le ?%N.leb_le]. lia.
Qed.

Lemma filter_fixed {A} (f : A → bool) (l : list A) :
  List.filter f l = l → Forall (λ x, f x = true) l.
Proof.
  induction l as [| a l IH]; simpl; [constructor |].
  destruct (f a) eqn:Hfa.
  - intros [= Heq]. constructor; auto.
  - intros Heq. pose proof (List.filter_length_le f l) as Hlen.
    rewrite Heq in Hlen. simpl in Hlen. lia.
Qed.

(** The text [get_prn] validates is the specification's normal form
    of the input. *)
Lemma normalized_prn_spec (raw : str) :
  normalized_prn raw = spec_normalize raw.
Proof.
  unfold normalized_prn, spec_normalize, converted.
  case_bool_decide as Hfilter.
  - apply list_bind_ext; [| done].
    intros ch. destruct (isascii ch) eqn:Hascii; [| done].
    by apply converted_ascii.
  - apply filter_fixed in Hfilter.
    induction Hfilter as [| ch l Hch _ IH]; [done |].
    rewrite bind_cons, Hch. simpl. by f_equal.
Qed.

(** In the normal form, the only characters with a digit value are
    the ASCII digits. *)
Lemma spec_normalize_digits (raw : str) :
  Forall (λ c, is_Some (digit c) → 48 ≤ c ≤ 57) (spec_normalize raw).
Proof.
  unfold spec_normalize. apply Forall_bind, Forall_forall.
  intros ch _. simpl.
  destruct (isascii ch) eqn:Hascii.
  - constructor; [| constructor]. unfold digit. rewrite Hascii.
    destruct ((48 <=? ch) && (ch <=? 57)) eqn:Hdigit.
    + apply andb_true_iff in Hdigit as [?%N.leb_le ?%N.leb_le]. lia.
    + by intros [? ?].
  - destruct (digit ch) as [d |] eqn:Hd.
    + eapply Forall_impl; [apply uint_str_digits |]. done.
    + constructor; [| constructor]. rewrite Hd. by intros [? ?].
Qed.

Lemma digit_ascii_digit (c : N) : 48 ≤ c ≤ 57 → is_Some (digit c).
Proof.
  intros Hc. unfold digit, isascii.
  replace (c <? 128) with true by (symmetry; apply N.ltb_lt; lia).
  replace ((48 <=? c) && (c <=? 57)) with true; [by eexists |].
  symmetry. apply andb_true_iff. split; apply N.leb_le; lia.
Qed.

(** The test of [get_prn] on the normal form: it fails exactly on
    eight ASCII digits. *)
Lemma validation_spec (raw : str) :
  negb (isdigit (spec_normalize raw))
  || bool_decide (length (spec_normalize raw) ≠ 8%nat) = false
  ↔ eight_ascii_digits (spec_normalize raw).
Proof.
  pose proof (spec_normalize_digits raw) as Hchars.
  unfold eight_ascii_digits.
  rewrite orb_false_iff, negb_false_iff, bool_decide_eq_false.
  destruct (spec_normalize raw) as [| c s] eqn:Hs.
  - simpl. split; [intros [? _]; done | intros [? _]; done].
  - unfold isdigit. rewrite forallb_forall. split.
    + intros [Hall Hlen]. split; [by apply dec_stable |].
      apply Forall_forall. intros x Hx.
      rewrite Forall_forall in Hchars. apply Hchars; [done |].
      apply list_elem_of_In in Hx.
      specialize (Hall x Hx). by apply bool_decide_eq_true in Hall.
    + intros [Hlen Hall]. split; [| by intros ?].
      intros x Hx%list_elem_of_In. apply bool_decide_eq_true.
      rewrite Forall_forall in Hall. by apply digit_ascii_digit, Hall.
Qed.

(** [get_prn] on a malformed identifier. *)
Lemma get_prn_malformed (e : Env) (raw : str) (w : World) :
  ¬ eight_ascii_digits (spec_normalize raw) →
  conv_handler e (Some GET_PRN) (Text raw) w =
    (w, if send_ok e then [Say malformed_identifier] else [], Some GET_PRN).
Proof.
  intros Hbad.
  unfold conv_handler, select, get_prn. rewrite normalized_prn_spec.
  destruct (negb (isdigit (spec_normalize raw))
            || bool_decide (length (spec_normalize raw) ≠ 8%nat)) eqn:Htest.
  - unfold bind, send, ret. by destruct (send_ok e).
  - by apply validation_spec in Htest.
Qed.

(** [get_prn] on a well-formed identifier: the directory decides. *)
Lemma get_prn_well_formed (e : Env) (raw : str) (w : World) :
  eight_ascii_digits (spec_normalize raw) →
  send_ok e = true →
  conv_handler e (Some GET_PRN) (Text raw) w =
    if db_ok e then
      match student_ref w !! spec_normalize raw with
      | Some sd =>
          if bool_decide (sd = ∅) then
            (w, [Say record_not_found], Some GET_PRN)
          else
            ({| user_data := with_prn (spec_normalize raw) sd (user_data w);
                student_ref := student_ref w;
                applications_ref := applications_ref w |},
             [Say (lit "PRN Verified for: "
                   ++ get_or sd "name" (lit "<name not available>")
                   ++ [10; 10]
                   ++ lit "Please enter your FULL NAME as per records in the format:"
                   ++ [10] ++ lit "SURNAME FIRST FATHER'S NAME")],
             Some GET_NAME)
      | None => (w, [Say record_not_found], Some GET_PRN)
      end
    else (w, [Say (lit "Database error. Please try again later.")], None).
Proof.
  intros Hgood Hsend.
  unfold conv_handler, select, get_prn. rewrite normalized_prn_spec.
  apply validation_spec in Hgood. rewrite Hgood.
  unfold bind, attempt, students_get, child_get, truthy, set_user_data,
    send, ret.
  rewrite Hsend. destruct (db_ok e); [| done].
  destruct (student_ref w !! spec_normalize raw) as [sd |]; [| done].
  by destruct (bool_decide (sd = ∅)).
Qed.

End Identifier.

(** C8: the text [get_prn] validates is the input with surrounding
    whitespace trimmed and every non-ASCII character that has a digit
    value replaced by its ASCII digit.  When that text is not exactly
    eight ASCII digits the reply is the malformed-identifier message
    and the conversation stays in GET_PRN with nothing changed, so any
    number of such inputs in a row leaves it there.  When it is eight
    ASCII digits the input goes on to the directory lookup, which
    alone decides: a record found moves to GET_NAME keeping the
    normalised identifier, none found gives the other, not-found
    reply, and a database error ends the conversation. *)
Theorem get_prn_validation `{Py.UnicodeData} (w : TgBot.World) :
  (∀ raw, TgBot.normalized_prn raw = Spec.spec_normalize raw)
  ∧ (∀ e raw,
       ¬ Spec.eight_ascii_digits (Spec.spec_normalize raw) →
       TgBot.conv_handler e (Some TgBot.GET_PRN) (TgBot.Text raw) w =
         (w,
          if TgBot.send_ok e then [TgBot.Say Spec.malformed_identifier]
          else [],
          Some TgBot.GET_PRN))
  ∧ (∀ updates,
       Forall (λ eu : TgBot.Env * TgBot.Update,
                 ∃ raw, eu.2 = TgBot.Text raw
                        ∧ ¬ Spec.eight_ascii_digits (Spec.spec_normalize raw))
              updates →
       (TgBot.session TgBot.GET_PRN w updates).2 = Some TgBot.GET_PRN
       ∧ (TgBot.session TgBot.GET_PRN w updates).1.1 = w)
  ∧ (∀ e raw,
       Spec.eight_ascii_digits (Spec.spec_normalize raw) →
       TgBot.send_ok e = true →
       let prn := Spec.spec_normalize raw in
       let '(w', fx, st) :=
         TgBot.conv_handler e (Some TgBot.GET_PRN) (TgBot.Text raw) w in
       (TgBot.db_ok e = true →
        ∀ sd, TgBot.student_ref w !! prn = Some sd → sd ≠ ∅ →
              st = Some TgBot.GET_NAME
              ∧ TgBot.ud_prn (TgBot.user_data w') = Some prn
              ∧ TgBot.ud_student_data (TgBot.user_data w') = Some sd)
       ∧ (TgBot.db_ok e = true → TgBot.student_ref w !! prn = None →
          (w', fx, st) = (w, [TgBot.Say Spec.record_not_found],
                          Some TgBot.GET_PRN))
       ∧ (TgBot.db_ok e = false → w' = w ∧ st = None))
  ∧ Spec.record_not_found ≠ Spec.malformed_identifier.
Proof.
  split; [apply normalized_prn_spec |].
  split; [intros e raw; apply get_prn_malformed |].
  split; [| split].
  - intros updates Hall. revert w.
    induction Hall as [| [e u] rest (raw & Hu & Hbad) _ IH]; intros w;
      [done |].
    simpl in Hu. subst u. simpl.
    rewrite (get_prn_malformed e raw w Hbad).
    specialize (IH w).
    destruct (TgBot.session TgBot.GET_PRN w rest) as [[w2 fx2] st2].
    exact IH.
  - intros e raw Hgood Hsend. simpl.
    rewrite (get_prn_well_formed e raw w Hgood Hsend).
    destruct (TgBot.db_ok e).
    + destruct (TgBot.student_ref w !! Spec.spec_normalize raw) as [sd |].
      * case_bool_decide as Hempty.
        -- split; [| split]; [| done | done].
           intros _ sd' [= <-] Hne. done.
        -- split; [| split]; [| done | done].
           intros _ sd' [= <-] _. done.
      * split; [| split]; done.
    + split; [| split]; done.
  - vm_compute. discriminate.
Qed.

Lemma get_prn_validation_witness :
  (TgBot.conv_handler (H := Py.sample_unicode) Spec.fine
     (Some TgBot.GET_PRN)
     (TgBot.Text ([32; 0xFF11; 0xFF12; 0xFF13; 0xFF14; 0xFF15; 0xFF16;
                   0xFF17; 0xFF18; 32]))
     Spec.fresh).2 = Some TgBot.GET_NAME.
Proof.
  pose (raw := [32; 0xFF11; 0xFF12; 0xFF13; 0xFF14; 0xFF15; 0xFF16;
                0xFF17; 0xFF18; 32]).
  assert (Hnorm : Spec.spec_normalize (H := Py.sample_unicode) raw
                  = [49; 50; 51; 52; 53; 54; 55; 56])
    by (vm_compute; reflexivity).
  destruct (get_prn_validation (H := Py.sample_unicode) Spec.fresh)
    as (_ & _ & _ & Hgood & _).
  specialize (Hgood Spec.fine raw). simpl in Hgood. fold raw.
  destruct (TgBot.conv_handler Spec.fine (Some TgBot.GET_PRN)
              (TgBot.Text raw) Spec.fresh) as [[w' fx] st].
  destruct Hgood as (Hfound & _).
  - unfold Spec.eight_ascii_digits. rewrite Hnorm.
    split; [reflexivity | repeat constructor; lia].
  - reflexivity.
  - destruct (Hfound eq_refl Spec.john) as (-> & _).
    + rewrite Hnorm. vm_compute. reflexivity.
    + vm_compute. discriminate.
    + reflexivity.
Defined.

(** *** Name verification *)

Section Name.
Import Py Firebase TgBot Spec.

Lemma isspace_spec (c : N) :
  isspace c = true ↔
  9 ≤ c ≤ 13 ∨ 28 ≤ c ≤ 32 ∨ c = 0x85 ∨ c = 0xA0 ∨ c = 0x1680
  ∨ 0x2000 ≤ c ≤ 0x200A ∨ c = 0x2028 ∨ c = 0x2029 ∨ c = 0x202F
  ∨ c = 0x205F ∨ c = 0x3000.
Proof.
  unfold isspace.
  rewrite !orb_true_iff, !andb_true_iff, !N.leb_le, !N.eqb_eq. tauto.
Qed.

Lemma isspace_false (c : N) :
  isspace c = false ↔
  ¬ (9 ≤ c ≤ 13 ∨ 28 ≤ c ≤ 32 ∨ c = 0x85 ∨ c = 0xA0 ∨ c = 0x1680
     ∨ 0x2000 ≤ c ≤ 0x200A ∨ c = 0x2028 ∨ c = 0x2029 ∨ c = 0x202F
     ∨ c = 0x205F ∨ c = 0x3000).
Proof. rewrite <- isspace_spec. by destruct (isspace c). Qed.

(** The sample database converts case without touching spacing. *)
Lemma sample_unicode_respects_spacing : upper_respects_spacing sample_unicode.
Proof.
  intros c Hascii. apply N.ltb_ge in Hascii. simpl.
  destruct (isspace c) eqn:Hspace.
  - apply isspace_spec in Hspace.
    replace ((0xE0 <=? c) && (c <=? 0xFE) && negb (c =? 0xF7)) with false;
      [done |].
    symmetry. rewrite !andb_false_iff, !N.leb_gt. lia.
  - apply isspace_false in Hspace.
    destruct ((0xE0 <=? c) && (c <=? 0xFE) && negb (c =? 0xF7)) eqn:Hlow.
    + apply andb_true_iff in Hlow as [Hlow _].
      apply andb_true_iff in Hlow as [?%N.leb_le ?%N.leb_le].
      split; [done |]. constructor; [| constructor].
      apply isspace_false. lia.
    + split; [done |]. constructor; [| constructor].
      by apply isspace_false.
Qed.

(** Cutting into runs loses nothing. *)
Lemma runs_concat (s : str) : concat (snd <$> runs s) = s.
Proof.
  induction s as [| c s IH]; [done |]. simpl.
  destruct (runs s) as [| [b run] rest]; simpl in *.
  - by rewrite <- IH.
  - destruct (Bool.eqb b (isspace c)); simpl; by rewrite <- IH.
Qed.

(** Characters that are not whitespace join the word that follows
    them, or make a word of their own. *)
Lemma runs_word_app (l r : str) :
  l ≠ [] → Forall (λ d, isspace d = false) l →
  runs (l ++ r) =
    match runs r with
    | (false, run) :: rest => (false, l ++ run) :: rest
    | rest => (false, l) :: rest
    end.
Proof.
  intros Hne Hall.
  induction Hall as [| d l Hd Hall IH]; [done |].
  destruct l as [| d' l'].
  - simpl. rewrite Hd. by destruct (runs r) as [| [[] run] rest].
  - change ((d :: d' :: l') ++ r) with (d :: ((d' :: l') ++ r)).
    cbn [runs]. rewrite (IH ltac:(done)), Hd.
    by destruct (runs r) as [| [[] run] rest].
Qed.

Context `{U : UnicodeData}.
Hypothesis Hupper : upper_respects_spacing U.

Lemma toupper_space (c : N) : isspace c = true → toupper c = [c].
Proof.
  intros Hspace. unfold toupper.
  destruct (isascii c) eqn:Hascii.
  - apply isspace_spec in Hspace.
    replace ((97 <=? c) && (c <=? 122)) with false; [done |].
    symmetry. rewrite andb_false_iff, !N.leb_gt. lia.
  - specialize (Hupper c Hascii). by rewrite Hspace in Hupper.
Qed.

Lemma toupper_nonspace (c : N) :
  isspace c = false →
  toupper c ≠ [] ∧ Forall (λ d, isspace d = false) (toupper c).
Proof.
  intros Hspace. unfold toupper.
  destruct (isascii c) eqn:Hascii.
  - split; [done |]. constructor; [| constructor].
    destruct ((97 <=? c) && (c <=? 122)) eqn:Hlow; [| done].
    apply andb_true_iff in Hlow as [?%N.leb_le ?%N.leb_le].
    apply isspace_false. lia.
  - specialize (Hupper c Hascii). by rewrite Hspace in Hupper.
Qed.

(** Case conversion works run by run: it leaves the whitespace runs
    as they are and puts each word in upper case. *)
Lemma runs_upper (s : str) : runs (upper s) = upper_run <$> runs s.
Proof.
  induction s as [| c s IH]; [done |].
  unfold upper in *. rewrite bind_cons.
  destruct (isspace c) eqn:Hspace.
  - rewrite (toupper_space c Hspace). cbn [app runs]. rewrite IH, Hspace.
    destruct (runs s) as [| [[] run] rest]; try done.
  - destruct (toupper_nonspace c Hspace) as [Hne Hall].
    rewrite (runs_word_app _ _ Hne Hall), IH. cbn [runs]. rewrite Hspace.
    destruct (runs s) as [| [[] run] rest]; simpl; unfold upper_run; simpl.
    + by rewrite (right_id_L [] (++)).
    + by rewrite (right_id_L [] (++)).
    + done.
Qed.

Lemma run_agrees_upper_run (x y : bool * str) :
  run_agrees x y ↔ upper_run x = upper_run y.
Proof.
  destruct x as [[] rx], y as [[] ry]; unfold run_agrees, upper_run; simpl;
    split; try (intros [? ?]; congruence); try (intros [= ?]; done);
    try (intros [= ?]; split; done).
Qed.

Lemma Forall2_run_agrees (l1 l2 : list (bool * str)) :
  Forall2 run_agrees l1 l2 ↔ upper_run <$> l1 = upper_run <$> l2.
Proof.
  revert l2. induction l1 as [| x l1 IH]; intros [| y l2].
  - split; [done | constructor].
  - split; [by inversion 1 | by rewrite fmap_cons].
  - split; [by inversion 1 | by rewrite fmap_cons].
  - rewrite Forall2_cons, !fmap_cons, IH, run_agrees_upper_run. split.
    + intros [Hx Hl]. by f_equal.
    + intros Heq. split.
      * exact (f_equal (λ l, default (upper_run x) (head l)) Heq).
      * exact (f_equal tail Heq).
Qed.

(** Two strings are equal in upper case exactly when their runs agree
    one by one. *)
Lemma upper_eq_runs (a b : str) :
  upper a = upper b ↔ Forall2 run_agrees (runs a) (runs b).
Proof.
  rewrite Forall2_run_agrees, <- !runs_upper. split.
  - by intros ->.
  - intros Heq. by rewrite <- (runs_concat (upper a)), Heq, runs_concat.
Qed.

(** Runs that agree have the same spacing. *)
Lemma run_agrees_spacing (l1 l2 : list (bool * str)) :
  Forall2 run_agrees l1 l2 →
  snd <$> List.filter fst l1 = snd <$> List.filter fst l2.
Proof.
  induction 1 as [| [b1 r1] [b2 r2] l1 l2 [Hb Hr] _ IH]; [done |].
  simpl in Hb, Hr. subst b2.
  destruct b1; cbn [List.filter fst]; [| exact IH].
  rewrite !fmap_cons. cbn [snd]. by rewrite Hr, IH.
Qed.

End Name.

(** What [get_name] does once [student_data] is known. *)
Lemma get_name_run `{Py.UnicodeData} (e : TgBot.Env) (text : Py.str)
    (w : TgBot.World) (sd : Firebase.record) :
  TgBot.ud_student_data (TgBot.user_data w) = Some sd →
  let correct_name :=
    Py.upper (Py.strip (Firebase.get_or sd "name" (Py.lit ""))) in
  TgBot.conv_handler e (Some TgBot.GET_NAME) (TgBot.Text text) w =
    if bool_decide (Py.upper (Py.strip text) ≠ correct_name) then
      (w,
       if TgBot.send_ok e then [TgBot.Say (Spec.name_mismatch correct_name)]
       else [],
       Some TgBot.GET_NAME)
    else
      ({| TgBot.user_data :=
            TgBot.with_name (Py.strip text) (TgBot.user_data w);
          TgBot.student_ref := TgBot.student_ref w;
          TgBot.applications_ref := TgBot.applications_ref w |},
       if TgBot.send_ok e then
         [TgBot.Say (Py.lit "Name verified. Please submit your 10-digit registered phone number.")]
       else [],
       if TgBot.send_ok e then Some TgBot.GET_PHONE else Some TgBot.GET_NAME).
Proof.
  intros Hsd.
  unfold TgBot.conv_handler, TgBot.select, TgBot.get_name, TgBot.bind,
    TgBot.get_user_data, TgBot.set_user_data, TgBot.send, TgBot.ret.
  rewrite Hsd. simpl. case_bool_decide; destruct (TgBot.send_ok e); reflexivity.
Qed.

(** C10: name verification accepts a submitted name exactly when,
    once both names are trimmed, they are cut by their whitespace into
    the same words up to letter case with the same whitespace,
    character for character, between them.  So a submitted name whose
    interior spacing differs from that of the record name is rejected:
    the reply is the name-mismatch message and the conversation stays in
    GET_NAME with nothing changed.  Against the record name "Jane Doe",
    "JANE  DOE" (two interior spaces) and "JANEDOE" (none) are so
    rejected, while "  jane doe ", which differs only in case and in
    surrounding whitespace, is accepted. *)
Theorem get_name_spacing_matters `{U : Py.UnicodeData}
    (e : TgBot.Env) (w : TgBot.World) (sd : Firebase.record) :
  Spec.upper_respects_spacing U →
  TgBot.ud_student_data (TgBot.user_data w) = Some sd →
  let canonical := Firebase.get_or sd "name" (Py.lit "") in
  let rejected :=
    (w,
     if TgBot.send_ok e
     then [TgBot.Say (Spec.name_mismatch (Py.upper (Py.strip canonical)))]
     else [],
     Some TgBot.GET_NAME) in
  (∀ text,
     ¬ Spec.same_name text canonical →
     TgBot.conv_handler e (Some TgBot.GET_NAME) (TgBot.Text text) w = rejected)
  ∧ (∀ text,
       Spec.spacing (Py.strip text) ≠ Spec.spacing (Py.strip canonical) →
       TgBot.conv_handler e (Some TgBot.GET_NAME) (TgBot.Text text) w
       = rejected)
  ∧ (∀ text,
       Spec.same_name text canonical → TgBot.send_ok e = true →
       (TgBot.conv_handler e (Some TgBot.GET_NAME) (TgBot.Text text) w).2
       = Some TgBot.GET_PHONE)
  ∧ (sd !! "name" = Some (Py.lit "Jane Doe") →
     TgBot.conv_handler e (Some TgBot.GET_NAME)
       (TgBot.Text (Py.lit "JANE  DOE")) w = rejected
     ∧ TgBot.conv_handler e (Some TgBot.GET_NAME)
         (TgBot.Text (Py.lit "JANEDOE")) w = rejected
     ∧ (TgBot.send_ok e = true →
        (TgBot.conv_handler e (Some TgBot.GET_NAME)
           (TgBot.Text (Py.lit "  jane doe ")) w).2 = Some TgBot.GET_PHONE)).
Proof.
  intros Hupper Hsd canonical rejected.
  assert (Hdiffer : ∀ text,
     ¬ Spec.same_name text canonical →
     TgBot.conv_handler e (Some TgBot.GET_NAME) (TgBot.Text text) w = rejected).
  { intros text Hnot. rewrite (get_name_run e text w sd Hsd). simpl.
    rewrite bool_decide_true; [done |].
    intros Heq. by apply Hnot, (upper_eq_runs Hupper). }
  assert (Hspacing : ∀ text,
     Spec.spacing (Py.strip text) ≠ Spec.spacing (Py.strip canonical) →
     TgBot.conv_handler e (Some TgBot.GET_NAME) (TgBot.Text text) w = rejected).
  { intros text Hne. apply Hdiffer. intros Hsame.
    by apply Hne, run_agrees_spacing. }
  split; [exact Hdiffer |]. split; [exact Hspacing |]. split.
  - intros text Hsame Hsend. rewrite (get_name_run e text w sd Hsd). simpl.
    rewrite bool_decide_false, Hsend; [done |].
    intros Hne. by apply Hne, (upper_eq_runs Hupper).
  - intros Hname.
    assert (Hcanonical : canonical = Py.lit "Jane Doe")
      by (unfold canonical, Firebase.get_or; by rewrite Hname).
    split; [| split].
    + apply Hspacing. rewrite Hcanonical. vm_compute. discriminate.
    + apply Hspacing. rewrite Hcanonical. vm_compute. discriminate.
    + intros Hsend. rewrite (get_name_run e _ w sd Hsd). simpl.
      fold canonical. rewrite Hcanonical, Hsend.
      rewrite bool_decide_false; [done |].
      intros Hne. apply Hne. vm_compute. reflexivity.
Qed.

Lemma get_name_spacing_matters_witness :
  TgBot.conv_handler (H := Py.sample_unicode) Spec.fine
    (Some TgBot.GET_NAME) (TgBot.Text (Py.lit "Jane" ++ [9] ++ Py.lit "Doe"))
    Spec.at_name
  = (Spec.at_name,
     [TgBot.Say (Spec.name_mismatch (Py.lit "JANE DOE"))],
     Some TgBot.GET_NAME).
Proof.
  destruct (get_name_spacing_matters (U := Py.sample_unicode) Spec.fine
              Spec.at_name
              (<["name" := Py.lit "Jane Doe"]>
                 (<["phone" := Py.lit "9111111111"]> ∅))
              sample_unicode_respects_spacing eq_refl) as (_ & Hspacing & _).
  rewrite Hspacing; [reflexivity |].
  vm_compute. discriminate.
Defined.

(** ** Further properties *)

(** *** Trimming *)

Section Trimming.
Import Py Spec.

Lemma lstrip_suffix (s : str) :
  ∃ ws, s = ws ++ lstrip s ∧ Forall (λ c, isspace c = true) ws.
Proof.
  induction s as [| c s (ws & Hs & Hws)]; [by exists [] |].
  simpl. destruct (isspace c) eqn:Hc.
  - exists (c :: ws). split; [simpl; by rewrite <- Hs | by constructor].
  - by exists [].
Qed.

Lemma lstrip_clean_head (s : str) : clean_head (lstrip s).
Proof.
  induction s as [| c s IH]; [done |]. simpl.
  by destruct (isspace c) eqn:Hc.
Qed.

Lemma lstrip_clean (s : str) : clean_head s → lstrip s = s.
Proof. destruct s as [| c s]; [done |]. simpl. by intros ->. Qed.

Lemma rstrip_clean_head (s : str) : clean_head s → clean_head (rstrip s).
Proof.
  intros Hs. unfold rstrip.
  destruct (lstrip_suffix (rev s)) as (ws & Hrev & _).
  apply (f_equal (@rev N)) in Hrev.
  rewrite rev_involutive, rev_app_distr in Hrev.
  destruct (rev (lstrip (rev s))) as [| c r]; [done |].
  rewrite Hrev in Hs. exact Hs.
Qed.

Lemma rstrip_rstrip (s : str) : rstrip (rstrip s) = rstrip s.
Proof.
  unfold rstrip. rewrite rev_involutive.
  by rewrite (lstrip_clean _ (lstrip_clean_head (rev s))).
Qed.

(** [strip] is idempotent: a trimmed string has nothing left to trim. *)
Lemma strip_strip (s : str) : strip (strip s) = strip s.
Proof.
  unfold strip.
  rewrite (lstrip_clean (rstrip (lstrip s))).
  - apply rstrip_rstrip.
  - apply rstrip_clean_head, lstrip_clean_head.
Qed.

End Trimming.

(** *** Signing in to the console *)

(** X1: [login] signs a user in exactly on a POST whose username and
    password, trimmed, are the configured ones; the user it signs in
    is restored by [load_user] on later requests and is sent to the
    dashboard; [load_user] restores no other identifier; and when a
    configured credential itself starts or ends with whitespace, no
    form signs in. *)
Theorem login_round_trip (cfg : Web.Config) (method : Web.Method)
    (form : gmap string Py.str) :
  let answer := Web.login cfg method form in
  (is_Some (Web.logged_in answer) ↔
     method = Web.POST
     ∧ Py.strip (default (Py.lit "") (form !! "username"))
       = Web.ADMIN_USERNAME cfg
     ∧ Py.strip (default (Py.lit "") (form !! "password"))
       = Web.ADMIN_PASSWORD cfg)
  ∧ (∀ user, Web.logged_in answer = Some user →
       Web.load_user cfg (Web.id user) = Some user
       ∧ Web.login_view answer = inl (Web.Redirect "dashboard" None))
  ∧ (∀ user_id, is_Some (Web.load_user cfg user_id) ↔
       user_id = Web.ADMIN_USERNAME cfg)
  ∧ (Py.strip (Web.ADMIN_USERNAME cfg) ≠ Web.ADMIN_USERNAME cfg
     ∨ Py.strip (Web.ADMIN_PASSWORD cfg) ≠ Web.ADMIN_PASSWORD cfg →
     Web.logged_in answer = None).
Proof.
  simpl. unfold Web.login, Web.load_user.
  set (username := Py.strip (default (Py.lit "") (form !! "username"))).
  set (password := Py.strip (default (Py.lit "") (form !! "password"))).
  assert (Husername : Py.strip username = username) by apply strip_strip.
  assert (Hpassword : Py.strip password = password) by apply strip_strip.
  split; [| split; [| split]].
  - destruct method; simpl.
    + split; [by intros [? ?] | by intros [? _]].
    + do 2 case_bool_decide; simpl; split;
        try (by intros [? ?]); try (intros (_ & ? & ?); done); eauto.
  - intros user. destruct method; simpl; [done |].
    do 2 case_bool_decide; simpl; try done.
    intros [= <-]. simpl. by rewrite bool_decide_true.
  - intros user_id. case_bool_decide; split; try done; by intros [? ?].
  - intros Hpadded. destruct method; simpl; [done |].
    do 2 case_bool_decide; simpl; try done.
    destruct Hpadded as [Hbad | Hbad]; exfalso; apply Hbad; congruence.
Qed.

Lemma login_round_trip_witness :
  Web.load_user
    {| Web.ADMIN_USERNAME := Py.lit "registrar";
       Web.ADMIN_PASSWORD := Py.lit "s3cret" |}
    (Py.lit "registrar") = Some {| Web.id := Py.lit "registrar" |}.
Proof.
  pose (cfg := {| Web.ADMIN_USERNAME := Py.lit "registrar";
                  Web.ADMIN_PASSWORD := Py.lit "s3cret" |}).
  pose (form := <["username" := Py.lit " registrar "]>
                  (<["password" := Py.lit "s3cret"]> (∅ : gmap string Py.str))).
  destruct (login_round_trip cfg Web.POST form) as (_ & Hrestored & _).
  apply (Hrestored {| Web.id := Py.lit "registrar" |}).
  vm_compute. reflexivity.
Defined.

(** *** Default templates *)

Section Templates.
Import Py Web.

Lemma ensure_templates_cons (tpl : string * str) (tpls : list (string * str))
    (dir : gmap string str) :
  ensure_templates (tpl :: tpls) dir =
    ensure_templates tpls
      (match dir !! tpl.1 with
       | Some _ => dir
       | None => <[tpl.1 := tpl.2]> dir
       end).
Proof. done. Qed.

Lemma ensure_templates_existing (tpls : list (string * str))
    (dir : gmap string str) (n : string) (c : str) :
  dir !! n = Some c → ensure_templates tpls dir !! n = Some c.
Proof.
  revert dir. induction tpls as [| tpl tpls IH]; intros dir Hn; [done |].
  rewrite ensure_templates_cons. apply IH.
  destruct (dir !! tpl.1) eqn:Htpl; [done |].
  rewrite lookup_insert_ne; [done |]. intros Heq. rewrite Heq in Htpl.
  congruence.
Qed.

Lemma ensure_templates_other (tpls : list (string * str))
    (dir : gmap string str) (n : string) :
  n ∉ tpls.*1 → ensure_templates tpls dir !! n = dir !! n.
Proof.
  revert dir. induction tpls as [| tpl tpls IH]; intros dir Hn; [done |].
  rewrite fmap_cons, not_elem_of_cons in Hn. destruct Hn as [Hne Hn].
  rewrite ensure_templates_cons, (IH _ Hn).
  destruct (dir !! tpl.1); [done |]. by rewrite lookup_insert_ne.
Qed.

Lemma ensure_templates_present (tpls : list (string * str))
    (dir : gmap string str) (n : string) :
  n ∈ tpls.*1 → is_Some (ensure_templates tpls dir !! n).
Proof.
  revert dir. induction tpls as [| tpl tpls IH]; intros dir Hn.
  - by apply elem_of_nil in Hn.
  - rewrite fmap_cons in Hn. rewrite ensure_templates_cons.
    apply elem_of_cons in Hn as [-> | Hn]; [| by apply IH].
    destruct (dir !! tpl.1) as [c |] eqn:Htpl.
    + exists c. by apply ensure_templates_existing.
    + exists tpl.2. apply ensure_templates_existing, lookup_insert_eq.
Qed.

Lemma ensure_templates_complete (tpls : list (string * str))
    (dir : gmap string str) :
  Forall (λ n, is_Some (dir !! n)) tpls.*1 → ensure_templates tpls dir = dir.
Proof.
  revert dir. induction tpls as [| tpl tpls IH]; intros dir Hall; [done |].
  rewrite fmap_cons in Hall. apply Forall_cons in Hall as [[c Hc] Hall].
  rewrite ensure_templates_cons, Hc. by apply IH.
Qed.

End Templates.

(** X2: [ensure_templates] never overwrites a file that exists, leaves
    files that are not templates alone, leaves every template present,
    writes the default content where a template was missing, and run a
    second time changes nothing. *)
Theorem ensure_templates_fills_gaps (tpls : list (string * Py.str))
    (dir : gmap string Py.str) :
  (∀ n c, dir !! n = Some c → Web.ensure_templates tpls dir !! n = Some c)
  ∧ (∀ n, n ∉ tpls.*1 → Web.ensure_templates tpls dir !! n = dir !! n)
  ∧ (∀ n, n ∈ tpls.*1 → is_Some (Web.ensure_templates tpls dir !! n))
  ∧ (∀ n c, NoDup tpls.*1 → (n, c) ∈ tpls → dir !! n = None →
            Web.ensure_templates tpls dir !! n = Some c)
  ∧ Web.ensure_templates tpls (Web.ensure_templates tpls dir)
    = Web.ensure_templates tpls dir.
Proof.
  split; [intros n c; apply ensure_templates_existing |].
  split; [intros n; apply ensure_templates_other |].
  split; [intros n; apply ensure_templates_present |].
  split.
  - revert dir. induction tpls as [| tpl tpls IH]; intros dir n c Hnodup Hin Hn.
    + by apply elem_of_nil in Hin.
    + rewrite fmap_cons in Hnodup. apply NoDup_cons in Hnodup as [Hfresh Hnodup].
      rewrite ensure_templates_cons.
      apply elem_of_cons in Hin as [<- | Hin].
      * simpl. rewrite Hn. simpl in Hfresh.
        rewrite (ensure_templates_other _ _ _ Hfresh). apply lookup_insert_eq.
      * assert (Hne : tpl.1 ≠ n).
        { intros <-. apply Hfresh, list_elem_of_fmap. by exists (tpl.1, c). }
        apply IH; [done | done |].
        destruct (dir !! tpl.1); [done |]. by rewrite lookup_insert_ne.
  - apply ensure_templates_complete, Forall_forall.
    intros n Hn. by apply ensure_templates_present.
Qed.

Lemma ensure_templates_fills_gaps_witness :
  Web.ensure_templates
    (Web.TPLS (Py.lit "<login>") (Py.lit "<dashboard>") (Py.lit "<application>"))
    {[ "login.html" := Py.lit "<mine>" ]} !! "dashboard.html"
  = Some (Py.lit "<dashboard>").
Proof.
  destruct (ensure_templates_fills_gaps
              (Web.TPLS (Py.lit "<login>") (Py.lit "<dashboard>")
                 (Py.lit "<application>"))
              {[ "login.html" := Py.lit "<mine>" ]}) as (_ & _ & _ & Hmissing & _).
  apply Hmissing.
  - apply (bool_decide_unpack _). by vm_compute.
  - apply (bool_decide_unpack _). by vm_compute.
  - vm_compute. reflexivity.
Defined.

(** *** From a status update to the pages that follow it *)

Section Console.
Import Py Firebase Web Spec.

(** The record an accepted update leaves under the identifier. *)
Lemma processed_record (now app_id : str) (form_status : option str)
    (apps : node) (st : Status) :
  strip (default (lit "") form_status) = status_str st →
  ∃ app,
    (process_application true now app_id form_status apps).1.1 !! app_id
      = Some app
    ∧ app ≠ ∅
    ∧ app !! "status" = Some (status_str st)
    ∧ app !! "processed_at" = Some now
    ∧ ∀ k, k ≠ "status" → k ≠ "processed_at" → app !! k = field apps app_id k.
Proof.
  intros Hst. rewrite (process_application_accepted _ _ _ _ st Hst). simpl.
  rewrite child_update_lookup_eq. eexists. split; [done |].
  assert (Hstatus :
    ((<["status" := status_str st]> (<["processed_at" := now]> ∅) : record)
       ∪ default ∅ (apps !! app_id)) !! "status" = Some (status_str st)).
  { apply lookup_union_Some_l. by rewrite lookup_insert_eq. }
  split; [| split; [exact Hstatus | split]].
  - intros Hempty. rewrite Hempty, lookup_empty in Hstatus. done.
  - apply lookup_union_Some_l.
    rewrite lookup_insert_ne by done. by rewrite lookup_insert_eq.
  - intros k Hk1 Hk2. rewrite lookup_union_r.
    + unfold field. destruct (apps !! app_id); simpl; [done | apply lookup_empty].
    + rewrite status_fields_lookup. by repeat case_decide.
Qed.

Lemma status_str_approved (st : Status) :
  status_str st = lit "Approved" ↔ st = Approved.
Proof. destruct st; split; try done; vm_compute; discriminate. Qed.

(** [print_bonafide] on an application that exists, with the database
    reachable. *)
Lemma print_bonafide_found (render_ok : bool) (today app_id : str)
    (apps : node) (app : record) :
  apps !! app_id = Some app → app ≠ ∅ →
  print_bonafide true render_ok today app_id apps =
    if bool_decide (app !! "status" ≠ Some (lit "Approved")) then
      Body "Application not approved" 403
    else if render_ok then
      SendFile (get_or app "prn" (lit "") ++ lit "_bonafide.pdf")
        [get_or app "name" (lit ""); get_or app "year" (lit "First Year");
         get_or app "branch" (lit "Engineering"); get_or app "prn" (lit "");
         get_or app "batch" (lit "");
         get_or app "purpose" (lit "Bonafide Certificate"); today]
    else Body "PDF generation failed. Check server logs." 500.
Proof.
  intros Happ Hne. unfold print_bonafide, child_get, truthy. rewrite Happ.
  simpl. rewrite (bool_decide_false (app = ∅)) by done. simpl.
  case_bool_decide; [done |]. by destruct render_ok.
Qed.

(** X3: after a status update that the database carried out, the
    view the administrator is redirected to never answers that the
    application is not found, also when there was no application under
    the identifier before: with the database reachable it hands
    application.html a record that shows the new status and its time
    next to the fields the application had before.  The page is the
    answer when the template renders; when rendering raises, the
    request fails with a server error. *)
Theorem view_after_process (render_ok : bool) (now app_id : str)
    (form_status : option str) (apps : node) (st : Status) :
  strip (default (lit "") form_status) = status_str st →
  let apps' := (process_application true now app_id form_status apps).1.1 in
  ∃ app,
    view_application true render_ok app_id apps' =
      (if render_ok then Rendered "application.html" app_id app
       else ServerError)
    ∧ app !! "status" = Some (status_str st)
    ∧ app !! "processed_at" = Some now
    ∧ ∀ k, k ≠ "status" → k ≠ "processed_at" → app !! k = field apps app_id k.
Proof.
  intros Hst apps'.
  destruct (processed_record now app_id form_status apps st Hst)
    as (app & Happ & Hne & Hrest).
  exists app. split; [| exact Hrest].
  subst apps'. unfold view_application, child_get, truthy. rewrite Happ.
  by rewrite bool_decide_false.
Qed.

Lemma view_after_process_witness :
  ∃ app,
    view_application true true (lit "-NxB2")
      (process_application true (lit "2025-01-02T08:00:00") (lit "-NxB2")
         (Some (lit "Rejected")) (one_application (lit "Pending"))).1.1
    = Rendered "application.html" (lit "-NxB2") app
    ∧ app !! "status" = Some (lit "Rejected").
Proof.
  destruct (view_after_process true (lit "2025-01-02T08:00:00") (lit "-NxB2")
              (Some (lit "Rejected")) (one_application (lit "Pending"))
              Rejected) as (app & Hview & Hstatus & _);
    [vm_compute; reflexivity |].
  exists app. split; [exact Hview | exact Hstatus].
Defined.

(** X4: right after a status update that the database carried out,
    the certificate of that application can be printed exactly when
    the status set was Approved: after Pending or Rejected the answer
    is "Application not approved" (403); after Approved the file is
    named after the prn and shows the fields the application had,
    with the defaults of the code for those it lacks, or the answer
    is the 500 failure when rendering raises. *)
Theorem print_after_process (render_ok : bool) (today now app_id : str)
    (form_status : option str) (apps : node) (st : Status) :
  strip (default (lit "") form_status) = status_str st →
  let apps' := (process_application true now app_id form_status apps).1.1 in
  let had k dflt := default dflt (field apps app_id k) in
  (st ≠ Approved →
   print_bonafide true render_ok today app_id apps'
   = Body "Application not approved" 403)
  ∧ (st = Approved →
     print_bonafide true render_ok today app_id apps' =
       if render_ok then
         SendFile (had "prn" (lit "") ++ lit "_bonafide.pdf")
           [had "name" (lit ""); had "year" (lit "First Year");
            had "branch" (lit "Engineering"); had "prn" (lit "");
            had "batch" (lit ""); had "purpose" (lit "Bonafide Certificate");
            today]
       else Body "PDF generation failed. Check server logs." 500).
Proof.
  intros Hst apps' had.
  destruct (processed_record now app_id form_status apps st Hst)
    as (app & Happ & Hne & Hstatus & _ & Hrest).
  subst apps'. rewrite (print_bonafide_found _ _ _ _ app Happ Hne), Hstatus.
  split.
  - intros Hother. rewrite bool_decide_true; [done |].
    intros [= Heq]. by apply Hother, status_str_approved.
  - intros ->. rewrite bool_decide_false by (by intros ?).
    destruct render_ok; [| done].
    unfold get_or, had. by rewrite !Hrest.
Qed.

Lemma print_after_process_witness :
  print_bonafide true true (lit "02 / 01 / 2025") (lit "-NxA1")
    (process_application true (lit "2025-01-02T08:00:00") (lit "-NxA1")
       (Some (lit "Rejected")) (one_application (lit "Approved"))).1.1
  = Body "Application not approved" 403.
Proof.
  destruct (print_after_process true (lit "02 / 01 / 2025")
              (lit "2025-01-02T08:00:00") (lit "-NxA1")
              (Some (lit "Rejected")) (one_application (lit "Approved"))
              Rejected) as (Hother & _);
    [vm_compute; reflexivity |].
  by apply Hother.
Defined.

End Console.

(** *** What the conversation writes *)

Section Stores.
Import Py Firebase TgBot Spec.
Local Open Scope handler_scope.

Lemma spares_ret {A} (a : A) : spares_nodes (ret a).
Proof. by intros w. Qed.

Lemma spares_raise {A} : spares_nodes (@raise A).
Proof. by intros w. Qed.

Lemma spares_get_user_data : spares_nodes get_user_data.
Proof. by intros w. Qed.

Lemma spares_set_user_data (f : UserData → UserData) :
  spares_nodes (set_user_data f).
Proof. by intros w. Qed.

Lemma spares_send (e : Env) (text : str) : spares_nodes (send e text).
Proof. intros w. unfold send. by destruct (send_ok e). Qed.

Lemma spares_answer (e : Env) : spares_nodes (answer e).
Proof. intros w. unfold answer. by destruct (answer_ok e). Qed.

Lemma spares_students_get (e : Env) (key : str) :
  spares_nodes (students_get e key).
Proof. intros w. unfold students_get. by destruct (db_ok e). Qed.

Lemma spares_bind {A B} (m : Handler A) (k : A → Handler B) :
  spares_nodes m → (∀ a, spares_nodes (k a)) → spares_nodes (bind m k).
Proof.
  intros Hm Hk w. unfold bind. specialize (Hm w).
  destruct (m w) as [[w1 fx1] [a |]]; simpl in *; [| done].
  specialize (Hk a w1). destruct (k a w1) as [[w2 fx2] r2]; simpl in *.
  destruct Hm as [Hm1 Hm2], Hk as [Hk1 Hk2]. split; congruence.
Qed.

Lemma spares_attempt {A} (m : Handler A) :
  spares_nodes m → spares_nodes (attempt m).
Proof.
  intros Hm w. unfold attempt. specialize (Hm w).
  by destruct (m w) as [[w1 fx1] r].
Qed.

Create HintDb spares.
#[local] Hint Resolve spares_ret spares_raise spares_get_user_data
  spares_set_user_data spares_send spares_answer spares_students_get
  spares_attempt : spares.

Ltac spares_steps :=
  repeat first
    [ apply spares_bind; [| intros ?]
    | progress eauto with spares
    | match goal with
      | |- spares_nodes (match ?x with _ => _ end) => destruct x
      | |- spares_nodes (if ?b then _ else _) => destruct b
      end ].

Context `{UnicodeData}.

Lemma spares_start_bonafide_flow (e : Env) (u : Update) :
  spares_nodes (start_bonafide_flow e u).
Proof. unfold start_bonafide_flow. spares_steps. Qed.

Lemma spares_get_prn (e : Env) (raw : str) : spares_nodes (get_prn e raw).
Proof. unfold get_prn. spares_steps. Qed.

Lemma spares_get_name (e : Env) (text : str) : spares_nodes (get_name e text).
Proof. unfold get_name. spares_steps. Qed.

Lemma spares_get_phone (e : Env) (text : str) :
  spares_nodes (get_phone e text).
Proof. unfold get_phone. spares_steps. Qed.

Lemma spares_cancel (e : Env) (u : Update) : spares_nodes (cancel e u).
Proof. unfold cancel. spares_steps. Qed.

Lemma spares_fallbacks (e : Env) (u : Update) (h : Handler Next) :
  fallbacks e u = Some h → spares_nodes h.
Proof.
  unfold fallbacks. intros Hsel.
  destruct u; try discriminate;
    match type of Hsel with (if ?b then _ else _) = _ => destruct b end;
    try discriminate; injection Hsel as <-; apply spares_cancel.
Qed.

Lemma select_spares (e : Env) (st : option State) (u : Update)
    (h : Handler Next) :
  select e st u = Some h →
  spares_nodes h
  ∨ (st = Some CONFIRM ∧ ∃ q, u = Callback q ∧ h = confirm_submission e q).
Proof.
  unfold select. intros Hsel.
  destruct st as [[] |].
  - destruct u; try (left; by eapply spares_fallbacks).
    injection Hsel as <-. left. apply spares_get_prn.
  - destruct u; try (left; by eapply spares_fallbacks).
    injection Hsel as <-. left. apply spares_get_name.
  - destruct u; try (left; by eapply spares_fallbacks).
    injection Hsel as <-. left. apply spares_get_phone.
  - destruct u; try (left; by eapply spares_fallbacks).
    match type of Hsel with (if ?b then _ else _) = _ => destruct b end.
    + injection Hsel as <-. right. eauto.
    + left. by eapply spares_fallbacks.
  - destruct u as [| | q |]; try discriminate.
    match type of Hsel with (if ?b then _ else _) = _ => destruct b end;
      [| discriminate].
    injection Hsel as <-. left.
    exact (spares_start_bonafide_flow e (Callback q)).
Qed.

(** [confirm_submission], path by path. *)
Lemma confirm_submission_run (e : Env) (q : Query) (w : World) :
  confirm_submission e q w =
    if answer_ok e then
      if bool_decide (data q = lit "confirm_yes") then
        if db_ok e then
          ({| user_data := user_data w; student_ref := student_ref w;
              applications_ref :=
                push_set (push_key e) (application_data (user_data w) q)
                  (applications_ref w) |},
           Create (application_data (user_data w) q)
           :: (if send_ok e then
                 [Say (lit "Application submitted successfully. You will be notified when it is processed.")]
               else []),
           Some END)
        else
          (w,
           Create (application_data (user_data w) q)
           :: (if send_ok e then
                 [Say (lit "An error occurred. Please try again later.")]
               else []),
           Some END)
      else
        (w, if send_ok e then [Say (lit "Application cancelled.")] else [],
         if send_ok e then Some END else None)
    else (w, [], None).
Proof.
  unfold confirm_submission, bind, answer, finally_return, try_except,
    get_user_data, applications_push_set, send, ret.
  destruct (answer_ok e); [| done]. simpl.
  case_bool_decide; destruct (db_ok e), (send_ok e); reflexivity.
Qed.

(** The fields of the dictionary [confirm_submission] files. *)
Lemma application_data_lookup (ud : UserData) (q : Query) (k : string) :
  application_data ud q !! k =
    if decide (k = "prn") then ud_prn ud
    else if decide (k = "name") then ud_name ud
    else if decide (k = "phone") then ud_phone ud
    else if decide (k = "batch") then default ∅ (ud_student_data ud) !! "batch"
    else if decide (k = "status") then Some (lit "Pending")
    else if decide (k = "submitted_at") then Some (message_date q)
    else None.
Proof.
  unfold application_data, put.
  destruct (ud_prn ud), (ud_name ud), (ud_phone ud),
    (default ∅ (ud_student_data ud) !! "batch") eqn:Hbatch;
    repeat case_decide; subst; simplify_map_eq; done.
Qed.

End Stores.

(** *** What a filed application has been checked against *)

Section Verified.
Import Py Firebase TgBot Spec.
Context `{UnicodeData}.

(** An update that is not for the handlers of the state either ends
    the conversation or leaves it where it is, and changes nothing. *)
Lemma fallbacks_run (e : Env) (u : Update) (h : Handler Next) (w : World) :
  fallbacks e u = Some h →
  (h w).1.1 = w ∧ ((h w).2 = Some END ∨ (h w).2 = None).
Proof.
  unfold fallbacks, cancel, bind, send, answer, ret. intros Hsel.
  destruct u; try discriminate;
    match type of Hsel with (if ?b then _ else _) = _ => destruct b end;
    try discriminate; injection Hsel as <-;
    destruct (send_ok e), (answer_ok e); simpl; auto.
Qed.

Lemma conv_fallbacks (e : Env) (st : option State) (u : Update) (w : World) :
  verified_so_far st w →
  verified_so_far
    (match fallbacks e u with
     | None => (w, [], st)
     | Some h =>
         let '(w1, fx, r) := h w in
         (w1, fx, match r with
                  | Some (Goto s) => Some s
                  | Some END => None
                  | None => st
                  end)
     end).2
    (match fallbacks e u with
     | None => (w, [], st)
     | Some h =>
         let '(w1, fx, r) := h w in
         (w1, fx, match r with
                  | Some (Goto s) => Some s
                  | Some END => None
                  | None => st
                  end)
     end).1.1.
Proof.
  intros Hinv. destruct (fallbacks e u) as [h |] eqn:Hsel; [| done].
  destruct (fallbacks_run e u h w Hsel) as [Hw Hr].
  destruct (h w) as [[w1 fx] r]. simpl in *. subst w1.
  by destruct Hr as [-> | ->].
Qed.

(** The guarantees of the states are kept by every update. *)
Lemma verified_so_far_step (e : Env) (st : option State) (u : Update)
    (w : World) :
  verified_so_far st w →
  verified_so_far (conv_handler e st u w).2 (conv_handler e st u w).1.1.
Proof.
  intros Hinv. destruct st as [[] |].
  - (* GET_PRN *)
    destruct u as [raw | | |];
      try (unfold conv_handler, select; by apply conv_fallbacks).
    unfold conv_handler, select, get_prn. rewrite normalized_prn_spec.
    destruct (negb (isdigit (spec_normalize raw))
              || bool_decide (length (spec_normalize raw) ≠ 8%nat)) eqn:Htest.
    + unfold bind, send, ret. by destruct (send_ok e).
    + apply validation_spec in Htest.
      unfold bind, attempt, students_get, child_get, truthy, set_user_data,
        send, ret.
      destruct (db_ok e); [| by destruct (send_ok e)].
      destruct (student_ref w !! spec_normalize raw) as [sd |] eqn:Hdir;
        [| by destruct (send_ok e)].
      destruct (bool_decide (sd = ∅)); simpl; [by destruct (send_ok e) |].
      destruct (send_ok e); simpl; [| done].
      exists (spec_normalize raw), sd. done.
  - (* GET_NAME *)
    destruct u as [text | | |];
      try (unfold conv_handler, select; by apply conv_fallbacks).
    destruct Hinv as (prn & sd & Hprn & Hsd & Hdir & Hdigits).
    rewrite (get_name_run e text w sd Hsd). simpl.
    case_bool_decide as Hcmp; simpl.
    + exists prn, sd. done.
    + destruct (send_ok e); simpl.
      * split; [exists prn, sd; done |].
        exists sd, (strip text). done.
      * exists prn, sd. done.
  - (* GET_PHONE *)
    destruct u as [text | | |];
      try (unfold conv_handler, select; by apply conv_fallbacks).
    destruct Hinv as [(prn & sd & Hprn & Hsd & Hdir & Hdigits)
                        (sd' & name & Hsd' & Hname & Hupper)].
    rewrite (get_phone_run e text w sd Hsd).
    case_bool_decide as Hcmp; simpl.
    + split; [exists prn, sd; done | exists sd', name; done].
    + destruct (send_ok e); simpl.
      * split; [exists prn, sd; done |].
        split; [exists sd', name; done |].
        exists sd. rewrite Hcmp. done.
      * split; [exists prn, sd; done | exists sd', name; done].
  - (* CONFIRM *)
    destruct u as [| | q |];
      try (unfold conv_handler, select; by apply conv_fallbacks).
    unfold conv_handler, select.
    destruct (re_match (lit "confirm_yes") (data q)
              || re_match (lit "confirm_no") (data q));
      [| by apply conv_fallbacks].
    rewrite confirm_submission_run.
    destruct (answer_ok e); [| done].
    case_bool_decide; [by destruct (db_ok e) |].
    by destruct (send_ok e).
  - (* no conversation *)
    unfold conv_handler, select.
    destruct u as [| | q |]; try done.
    destruct (re_match (lit "start_bonafide_flow") (data q)); [| done].
    unfold start_bonafide_flow, bind, answer, set_user_data, send, ret.
    by destruct (answer_ok e), (send_ok e).
Qed.

(** The record a create is called with. *)
Lemma conv_handler_create (e : Env) (st : option State) (u : Update)
    (w : World) (d : record) :
  Create d ∈ (conv_handler e st u w).1.2 →
  st = Some CONFIRM
  ∧ ∃ q, u = Callback q ∧ d = application_data (user_data w) q.
Proof.
  unfold conv_handler.
  destruct (select e st u) as [h |] eqn:Hsel; simpl;
    [| by intros ?%elem_of_nil].
  destruct (select_quiet _ _ _ _ Hsel) as [Hq | (-> & q & -> & ->)].
  - specialize (Hq w). destruct (h w) as [[w1 fx] r]; simpl in *.
    intros Hin%creates_elem. lia.
  - rewrite confirm_submission_run.
    destruct (answer_ok e); simpl; [| by intros ?%elem_of_nil].
    case_bool_decide; simpl.
    + destruct (db_ok e), (send_ok e); simpl; intros Hin;
        repeat (apply elem_of_cons in Hin as [Hin | Hin]);
        try (by apply elem_of_nil in Hin); try discriminate;
        injection Hin as ->; eauto.
    + destruct (send_ok e); simpl; intros Hin;
        repeat (apply elem_of_cons in Hin as [Hin | Hin]);
        try (by apply elem_of_nil in Hin); discriminate.
Qed.

Lemma run_student_ref (e : Env) (st : option State) (u : Update) (w : World) :
  student_ref (conv_handler e st u w).1.1 = student_ref w.
Proof.
  unfold conv_handler.
  destruct (select e st u) as [h |] eqn:Hsel; [| done].
  destruct (select_spares _ _ _ _ Hsel) as [Hspare | (-> & q & -> & ->)].
  - destruct (Hspare w) as [Hstudents _].
    by destruct (h w) as [[w1 fx] r].
  - rewrite confirm_submission_run.
    destruct (answer_ok e); [| done].
    case_bool_decide; [by destruct (db_ok e) | done].
Qed.

End Verified.

(** What [confirm_submission] writes. *)
Lemma confirm_submission_frame `{Py.UnicodeData}
    (e : TgBot.Env) (q : TgBot.Query) (w : TgBot.World) :
  let '(w', fx, _) := TgBot.confirm_submission e q w in
  TgBot.student_ref w' = TgBot.student_ref w
  ∧ (∀ k, k ≠ TgBot.push_key e →
          TgBot.applications_ref w' !! k = TgBot.applications_ref w !! k)
  ∧ (TgBot.creates fx = 0%nat →
     TgBot.applications_ref w' = TgBot.applications_ref w)
  ∧ (∀ d, TgBot.Create d ∈ fx →
          TgBot.data q = Py.lit "confirm_yes"
          ∧ d = TgBot.application_data (TgBot.user_data w) q
          ∧ (TgBot.db_ok e = true →
             TgBot.applications_ref w'
             = <[TgBot.push_key e := d]> (TgBot.applications_ref w))).
Proof.
  rewrite confirm_submission_run.
  destruct (TgBot.answer_ok e);
    [| split; [done |]; split; [done |]; split; [done |];
       by intros d0 ?%elem_of_nil].
  case_bool_decide as Hdata.
  - destruct (TgBot.db_ok e); simpl.
    + split; [done |]. split.
      { intros k Hk. unfold Firebase.push_set. by rewrite lookup_insert_ne. }
      split; [by unfold TgBot.creates |].
      intros d Hin.
      assert (Hd : d = TgBot.application_data (TgBot.user_data w) q).
      { destruct (TgBot.send_ok e);
          repeat (apply elem_of_cons in Hin as [Hin | Hin]);
          try (by apply elem_of_nil in Hin); try discriminate;
          by injection Hin. }
      by subst d.
    + split; [done |]. split; [done |]. split; [by unfold TgBot.creates |].
      intros d Hin.
      assert (Hd : d = TgBot.application_data (TgBot.user_data w) q).
      { destruct (TgBot.send_ok e);
          repeat (apply elem_of_cons in Hin as [Hin | Hin]);
          try (by apply elem_of_nil in Hin); try discriminate;
          by injection Hin. }
      by subst d.
  - split; [done |]. split; [done |]. split; [done |].
    intros d Hin. destruct (TgBot.send_ok e);
      repeat (apply elem_of_cons in Hin as [Hin | Hin]);
      try (by apply elem_of_nil in Hin); discriminate.
Qed.

(** X5: handling an update never writes the Students node and never
    touches an application stored under a key other than the one
    [push()] generates during that update; when it makes no call to
    create it leaves the applications node exactly as it was; and a
    call to create is made only on the confirm_yes callback in
    CONFIRM, with the record built from the user's dictionary, which,
    when the database requests complete, is stored under the
    generated key as the one change to the node. *)
Theorem conversation_store_frame `{Py.UnicodeData}
    (e : TgBot.Env) (st : option TgBot.State) (u : TgBot.Update)
    (w : TgBot.World) :
  let '(w', fx, _) := TgBot.conv_handler e st u w in
  TgBot.student_ref w' = TgBot.student_ref w
  ∧ (∀ k, k ≠ TgBot.push_key e →
          TgBot.applications_ref w' !! k = TgBot.applications_ref w !! k)
  ∧ (TgBot.creates fx = 0%nat →
     TgBot.applications_ref w' = TgBot.applications_ref w)
  ∧ (∀ d, TgBot.Create d ∈ fx →
          st = Some TgBot.CONFIRM
          ∧ (∃ q, u = TgBot.Callback q
                  ∧ TgBot.data q = Py.lit "confirm_yes"
                  ∧ d = TgBot.application_data (TgBot.user_data w) q)
          ∧ (TgBot.db_ok e = true →
             TgBot.applications_ref w'
             = <[TgBot.push_key e := d]> (TgBot.applications_ref w))).
Proof.
  unfold TgBot.conv_handler.
  destruct (TgBot.select e st u) as [h |] eqn:Hsel;
    [| split; [done |]; split; [done |]; split; [done |];
       by intros d0 ?%elem_of_nil].
  assert (Hconfirm : ∀ q, st = Some TgBot.CONFIRM → u = TgBot.Callback q →
                          h = TgBot.confirm_submission e q →
    let '(w', fx, _) :=
      (let '(w1, fx, r) := h w in
       (w1, fx, match r with
                | Some (TgBot.Goto s) => Some s
                | Some TgBot.END => None
                | None => st
                end)) in
    TgBot.student_ref w' = TgBot.student_ref w
    ∧ (∀ k, k ≠ TgBot.push_key e →
            TgBot.applications_ref w' !! k = TgBot.applications_ref w !! k)
    ∧ (TgBot.creates fx = 0%nat →
       TgBot.applications_ref w' = TgBot.applications_ref w)
    ∧ (∀ d, TgBot.Create d ∈ fx →
            st = Some TgBot.CONFIRM
            ∧ (∃ q, u = TgBot.Callback q
                    ∧ TgBot.data q = Py.lit "confirm_yes"
                    ∧ d = TgBot.application_data (TgBot.user_data w) q)
            ∧ (TgBot.db_ok e = true →
               TgBot.applications_ref w'
               = <[TgBot.push_key e := d]> (TgBot.applications_ref w)))).
  { intros q -> -> ->.
    pose proof (confirm_submission_frame e q w) as Hframe.
    destruct (TgBot.confirm_submission e q w) as [[w1 fx] r].
    destruct Hframe as (Hstudents & Hother & Hnone & Hcreate).
    split; [done |]. split; [done |]. split; [done |].
    intros d Hin. destruct (Hcreate d Hin) as (Hdata & Hd & Hstored).
    split; [done |]. split; [by exists q | done]. }
  destruct (select_spares _ _ _ _ Hsel) as [Hspare | (Hst & q & Hu & Hh)];
    [| by apply (Hconfirm q)].
  destruct (select_quiet _ _ _ _ Hsel) as [Hquiet | (Hst & q & Hu & Hh)];
    [| by apply (Hconfirm q)].
  destruct (Hspare w) as [Hstudents Happs]. specialize (Hquiet w).
  destruct (h w) as [[w1 fx] r]. simpl in *.
  split; [done |]. split; [by rewrite Happs |]. split; [done |].
  intros d Hin%creates_elem. lia.
Qed.

(** X6: whatever updates a user sends, starting with no conversation
    under way and with anything left in the user's dictionary, every
    record create is called with carries a prn of eight ASCII digits
    under which the directory holds a student, a name equal in upper
    case to that student's trimmed name, that student's trimmed phone
    and batch, and the status Pending. *)
Theorem filed_applications_are_verified `{Py.UnicodeData}
    (w : TgBot.World) (updates : list (TgBot.Env * TgBot.Update)) :
  ∀ step d,
    step ∈ TgBot.run None w updates →
    TgBot.Create d ∈ step.1.2 →
    ∃ prn sd name,
      TgBot.student_ref w !! prn = Some sd
      ∧ Spec.eight_ascii_digits prn
      ∧ d !! "prn" = Some prn
      ∧ d !! "name" = Some name
      ∧ Py.upper name
        = Py.upper (Py.strip (Firebase.get_or sd "name" (Py.lit "")))
      ∧ d !! "phone"
        = Some (Py.strip (Firebase.get_or sd "phone" (Py.lit "")))
      ∧ d !! "batch" = sd !! "batch"
      ∧ d !! "status" = Some (Spec.status_str Spec.Pending).
Proof.
  assert (Hgen : ∀ updates st w0,
    TgBot.student_ref w0 = TgBot.student_ref w →
    Spec.verified_so_far st w0 →
    ∀ step d,
      step ∈ TgBot.run st w0 updates →
      TgBot.Create d ∈ step.1.2 →
      ∃ prn sd name,
        TgBot.student_ref w !! prn = Some sd
        ∧ Spec.eight_ascii_digits prn
        ∧ d !! "prn" = Some prn
        ∧ d !! "name" = Some name
        ∧ Py.upper name
          = Py.upper (Py.strip (Firebase.get_or sd "name" (Py.lit "")))
        ∧ d !! "phone"
          = Some (Py.strip (Firebase.get_or sd "phone" (Py.lit "")))
        ∧ d !! "batch" = sd !! "batch"
        ∧ d !! "status" = Some (Spec.status_str Spec.Pending)).
  { clear updates. intros updates.
    induction updates as [| [e u] rest IH]; intros st w0 Hdir Hinv step d Hstep Hd.
    - by apply elem_of_nil in Hstep.
    - simpl in Hstep.
      pose proof (verified_so_far_step e st u w0 Hinv) as Hnext.
      pose proof (run_student_ref e st u w0) as Hsame.
      pose proof (conv_handler_create e st u w0 d) as Hcreate.
      destruct (TgBot.conv_handler e st u w0) as [[w1 fx] st1]. simpl in *.
      apply elem_of_cons in Hstep as [-> | Hstep].
      + simpl in Hd. destruct (Hcreate Hd) as (-> & q & -> & ->).
        destruct Hinv as ((prn & sd & Hprn & Hsd & Hlook & Hdigits)
                          & (sd1 & name & Hsd1 & Hname & Hupper)
                          & (sd2 & Hsd2 & Hphone)).
        rewrite Hsd in Hsd1, Hsd2. injection Hsd1 as <-. injection Hsd2 as <-.
        exists prn, sd, name. rewrite <- Hdir.
        rewrite !application_data_lookup. simpl. rewrite Hsd. done.
      + eapply (IH st1 w1); [congruence | done | done | done]. }
  intros step d. by apply (Hgen updates None w).
Qed.

Lemma filed_applications_are_verified_witness :
  ∃ prn sd,
    Spec.directory !! prn = Some sd
    ∧ Spec.filed (Py.lit "12345678") (Py.lit "john smith")
        (Py.lit "9000000000") (Py.lit "2024-28") (Py.lit "Pending")
        (Py.lit "2025-01-01 10:00:00+00:00") !! "prn" = Some prn.
Proof.
  destruct (filed_applications_are_verified (H := Py.sample_unicode)
              Spec.fresh
              ((Spec.fine, Spec.press (Py.lit "start_bonafide_flow"))
               :: Spec.scenario)
              (Some TgBot.CONFIRM,
               [TgBot.Create
                  (Spec.filed (Py.lit "12345678") (Py.lit "john smith")
                     (Py.lit "9000000000") (Py.lit "2024-28")
                     (Py.lit "Pending") (Py.lit "2025-01-01 10:00:00+00:00"));
                TgBot.Say (Py.lit "Application submitted successfully. You will be notified when it is processed.")],
               None)
              (Spec.filed (Py.lit "12345678") (Py.lit "john smith")
                 (Py.lit "9000000000") (Py.lit "2024-28")
                 (Py.lit "Pending") (Py.lit "2025-01-01 10:00:00+00:00")))
    as (prn & sd & name & Hdir & _ & Hprn & _).
  - vm_compute. do 5 right. left.
  - left.
  - exists prn, sd. split; [exact Hdir | exact Hprn].
Defined.

(** *** Entering and leaving the conversation *)

(** X7: the Bonafide button (callback data start_bonafide_flow) is
    never taken by the menu handler; with no conversation under way it
    opens one, which asks for the PRN and waits in GET_PRN (nothing
    opens when answering or editing the message raises); pressed while
    a conversation is under way it does nothing at all, in whatever
    state: the conversation cannot be re-entered. *)
Theorem bonafide_button `{Py.UnicodeData} (e : TgBot.Env) (w : TgBot.World)
    (chat : Z) (date : Py.str) :
  let u := TgBot.Callback {| TgBot.data := Py.lit "start_bonafide_flow";
                             TgBot.message_chat_id := chat;
                             TgBot.message_date := date |} in
  (∀ s, TgBot.process_update e (Some s) u w
        = (w, TgBot.Conversed [], Some s))
  ∧ TgBot.process_update e None u w =
      if TgBot.answer_ok e then
        ({| TgBot.user_data := TgBot.with_chat_id chat (TgBot.user_data w);
            TgBot.student_ref := TgBot.student_ref w;
            TgBot.applications_ref := TgBot.applications_ref w |},
         TgBot.Conversed
           (if TgBot.send_ok e
            then [TgBot.Say (Py.lit "Please enter your 8-digit PRN Number:")]
            else []),
         if TgBot.send_ok e then Some TgBot.GET_PRN else None)
      else (w, TgBot.Conversed [], None).
Proof.
  split.
  - intros []; reflexivity.
  - unfold TgBot.process_update, TgBot.conv_handler, TgBot.select. simpl.
    unfold TgBot.bind, TgBot.answer, TgBot.set_user_data, TgBot.send,
      TgBot.ret.
    destruct (TgBot.answer_ok e), (TgBot.send_ok e); reflexivity.
Qed.

(** X8: /cancel ends the conversation from every state, once its
    reply is sent, and changes neither the user's dictionary nor the
    database; and with no conversation under way every update other
    than the Bonafide button is ignored, so a confirmation button
    pressed after a cancel files nothing. *)
Theorem cancel_discards `{Py.UnicodeData} (e : TgBot.Env) (w : TgBot.World) :
  (∀ s, TgBot.conv_handler e (Some s) (TgBot.Command "cancel") w =
        (w,
         if TgBot.send_ok e then [TgBot.Say (Py.lit "Operation cancelled.")]
         else [],
         if TgBot.send_ok e then None else Some s))
  ∧ (∀ u,
       (∀ q, u = TgBot.Callback q →
             TgBot.re_match (Py.lit "start_bonafide_flow") (TgBot.data q)
             = false) →
       TgBot.conv_handler e None u w = (w, [], None)).
Proof.
  split.
  - intros s.
    unfold TgBot.conv_handler, TgBot.select, TgBot.fallbacks, TgBot.cancel,
      TgBot.bind, TgBot.send, TgBot.ret.
    destruct s; simpl; destruct (TgBot.send_ok e); reflexivity.
  - intros u Hnot. unfold TgBot.conv_handler, TgBot.select.
    destruct u as [| | q |]; try reflexivity.
    by rewrite (Hnot q eq_refl).
Qed.

Lemma cancel_discards_witness :
  TgBot.conv_handler (H := Py.sample_unicode) Spec.fine None
    (Spec.press (Py.lit "confirm_yes")) Spec.at_phone
  = (Spec.at_phone, [], None).
Proof.
  destruct (cancel_discards (H := Py.sample_unicode) Spec.fine Spec.at_phone)
    as [_ Hidle].
  apply Hidle. intros q [= <-]. vm_compute. reflexivity.
Defined.

(** *** The handlers registered before the conversation *)

Section Registration.
Import Py Firebase TgBot Spec.
Context `{UnicodeData}.

Lemma re_match_inv (literal s : str) :
  re_match literal s = true → s = literal ∨ s = literal ++ [10].
Proof.
  unfold re_match. intros [Heq | Heq]%orb_true_iff;
    apply bool_decide_eq_true in Heq; auto.
Qed.

(** The callback data the conversation reacts to are not menu data. *)
Lemma select_callback_not_menu (e : Env) (st : option State) (q : Query)
    (h : Handler Next) :
  select e st (Callback q) = Some h → menu_match (data q) = false.
Proof.
  assert (Hfallbacks : ∀ h', fallbacks e (Callback q) = Some h' →
                             menu_match (data q) = false).
  { unfold fallbacks. intros h'.
    destruct (re_match (lit "cancel") (data q)) eqn:Hm; [| discriminate].
    intros _. apply re_match_inv in Hm as [-> | ->]; by vm_compute. }
  unfold select. destruct st as [[] |]; try apply Hfallbacks.
  - destruct (re_match (lit "confirm_yes") (data q)) eqn:Hyes.
    + intros _. apply re_match_inv in Hyes as [-> | ->]; by vm_compute.
    + destruct (re_match (lit "confirm_no") (data q)) eqn:Hno; simpl.
      * intros _. apply re_match_inv in Hno as [-> | ->]; by vm_compute.
      * apply Hfallbacks.
  - destruct (re_match (lit "start_bonafide_flow") (data q)) eqn:Hm;
      [| discriminate].
    intros _. apply re_match_inv in Hm as [-> | ->]; by vm_compute.
Qed.

Lemma select_command_cancel (e : Env) (st : option State) (c : string)
    (h : Handler Next) :
  select e st (Command c) = Some h → c = "cancel".
Proof.
  unfold select, fallbacks. destruct st as [[] |]; try discriminate;
    case_bool_decide; done.
Qed.

End Registration.

(** X9: the handlers registered before the conversation handler never
    take an update the conversation would react to, so such an update
    is handled exactly as the conversation handler alone handles it;
    and the updates they do take, the /start and /help commands and
    the menu callbacks, leave the state of the conversation and the
    bot's data as they were. *)
Theorem conversation_not_shadowed `{Py.UnicodeData}
    (e : TgBot.Env) (st : option TgBot.State) (u : TgBot.Update)
    (w : TgBot.World) :
  (∀ h, TgBot.select e st u = Some h →
        TgBot.process_update e st u w =
          ((TgBot.conv_handler e st u w).1.1,
           TgBot.Conversed (TgBot.conv_handler e st u w).1.2,
           (TgBot.conv_handler e st u w).2))
  ∧ (∀ q, u = TgBot.Callback q → TgBot.menu_match (TgBot.data q) = true →
          TgBot.process_update e st u w =
            (w, TgBot.Navigated (TgBot.button_click_handler e (TgBot.data q)),
             st))
  ∧ (u = TgBot.Command "start" →
     TgBot.process_update e st u w = (w, TgBot.Started (TgBot.start e), st))
  ∧ (u = TgBot.Command "help" →
     TgBot.process_update e st u w
     = (w, TgBot.Helped (TgBot.help_command e), st)).
Proof.
  split; [| split; [| split]].
  - intros h Hsel. unfold TgBot.process_update.
    destruct u as [text | c | q |].
    + by destruct (TgBot.conv_handler e st (TgBot.Text text) w) as [[w1 fx] st1].
    + apply select_command_cancel in Hsel as ->. simpl.
      by destruct (TgBot.conv_handler e st (TgBot.Command "cancel") w)
        as [[w1 fx] st1].
    + rewrite (select_callback_not_menu e st q h Hsel).
      by destruct (TgBot.conv_handler e st (TgBot.Callback q) w)
        as [[w1 fx] st1].
    + by destruct (TgBot.conv_handler e st TgBot.Other w) as [[w1 fx] st1].
  - intros q -> Hmenu. unfold TgBot.process_update. by rewrite Hmenu.
  - by intros ->.
  - by intros ->.
Qed.

Lemma conversation_not_shadowed_witness :
  TgBot.process_update (H := Py.sample_unicode) Spec.fine
    (Some TgBot.GET_PHONE) (Spec.press (Py.lit "admin_office")) Spec.at_phone
  = (Spec.at_phone,
     TgBot.Navigated (TgBot.button_click_handler Spec.fine (Py.lit "admin_office")),
     Some TgBot.GET_PHONE).
Proof.
  destruct (conversation_not_shadowed (H := Py.sample_unicode) Spec.fine
              (Some TgBot.GET_PHONE) (Spec.press (Py.lit "admin_office"))
              Spec.at_phone) as (_ & Hmenu & _).
  apply (Hmenu {| TgBot.data := Py.lit "admin_office";
                  TgBot.message_chat_id := 4242;
                  TgBot.message_date := Py.lit "2025-01-01 10:00:00+00:00" |});
    [reflexivity | vm_compute; reflexivity].
Defined.

(** The data of the buttons of the menus. *)
Lemma menu_button_data (e : TgBot.Env) (data : Py.str)
    (m : TgBot.Menu) (b : TgBot.Button) :
  TgBot.start e = Some m ∨ TgBot.button_click_handler e data = Some m →
  b ∈ TgBot.reply_markup m →
  TgBot.menu_match (TgBot.callback_data b) = true
  ∨ TgBot.callback_data b = Py.lit "start_bonafide_flow".
Proof.
  unfold TgBot.start, TgBot.button_click_handler.
  intros [Hm | Hm] Hb.
  - destruct (TgBot.send_ok e); [| discriminate]. injection Hm as <-.
    simpl in Hb.
    repeat (apply elem_of_cons in Hb as [-> | Hb]);
      try (by apply elem_of_nil in Hb); left; by vm_compute.
  - destruct (TgBot.answer_ok e), (TgBot.send_ok e); try discriminate.
    injection Hm as <-.
    repeat case_bool_decide; simpl in Hb;
      repeat (apply elem_of_cons in Hb as [-> | Hb]);
      try (by apply elem_of_nil in Hb);
      first [ left; by vm_compute | right; reflexivity ].
Qed.

(** X10: every button of every menu the bot shows, on /start or on a
    menu callback with whatever data, is taken by the menu handler
    when pressed, whatever the state of the conversation, which it
    leaves as it was; the one exception is the Bonafide button of the
    admin-office menu, which the menu handler does not take: the
    entry point of the conversation takes it when no conversation is
    under way, and while one is under way no handler takes it and
    pressing it does nothing. *)
Theorem menu_buttons_are_handled `{Py.UnicodeData}
    (e : TgBot.Env) (data : Py.str) (m : TgBot.Menu) (b : TgBot.Button) :
  TgBot.start e = Some m ∨ TgBot.button_click_handler e data = Some m →
  b ∈ TgBot.reply_markup m →
  ∀ (e' : TgBot.Env) (st : option TgBot.State) (w : TgBot.World)
    (chat : Z) (date : Py.str),
    let u := TgBot.Callback {| TgBot.data := TgBot.callback_data b;
                               TgBot.message_chat_id := chat;
                               TgBot.message_date := date |} in
    (TgBot.menu_match (TgBot.callback_data b) = true
     ∧ TgBot.process_update e' st u w
       = (w,
          TgBot.Navigated
            (TgBot.button_click_handler e' (TgBot.callback_data b)),
          st))
    ∨ (TgBot.callback_data b = Py.lit "start_bonafide_flow"
       ∧ TgBot.menu_match (TgBot.callback_data b) = false
       ∧ TgBot.select e' None u = Some (TgBot.start_bonafide_flow e' u)
       ∧ ∀ s, TgBot.process_update e' (Some s) u w
              = (w, TgBot.Conversed [], Some s)).
Proof.
  intros Hm Hb e' st w chat date u.
  destruct (menu_button_data e data m b Hm Hb) as [Hmenu | Hentry].
  - left. split; [done |].
    unfold TgBot.process_update, u. simpl. by rewrite Hmenu.
  - right. destruct b as [lbl cd]. simpl in *. subst cd u.
    split; [done |]. split; [by vm_compute |]. split; [reflexivity |].
    intros []; reflexivity.
Qed.

Lemma menu_buttons_are_handled_witness :
  TgBot.process_update (H := Py.sample_unicode) Spec.fine
    (Some TgBot.GET_NAME) (Spec.press (Py.lit "start_bonafide_flow"))
    Spec.at_name
  = (Spec.at_name, TgBot.Conversed [], Some TgBot.GET_NAME).
Proof.
  pose (m := {| TgBot.menu_text := Py.lit "Shows the menu for admin office tasks.";
                TgBot.reply_markup :=
                  [ {| TgBot.label := Py.lit "Fee Receipt";
                       TgBot.callback_data := Py.lit "fee_receipt" |};
                    {| TgBot.label := Py.lit "Bonafide";
                       TgBot.callback_data := Py.lit "start_bonafide_flow" |};
                    {| TgBot.label := Py.lit "Admission Details";
                       TgBot.callback_data := Py.lit "admission_details" |};
                    {| TgBot.label := Py.lit "Back";
                       TgBot.callback_data := Py.lit "first_year" |} ] |}).
  destruct (menu_buttons_are_handled (H := Py.sample_unicode) Spec.fine
              (Py.lit "admin_office") m
              {| TgBot.label := Py.lit "Bonafide";
                 TgBot.callback_data := Py.lit "start_bonafide_flow" |}
              ltac:(right; vm_compute; reflexivity)
              ltac:(right; left)
              Spec.fine (Some TgBot.GET_NAME) Spec.at_name 4242%Z
              (Py.lit "2025-01-01 10:00:00+00:00"))
    as [[Hmenu _] | (_ & _ & _ & Hdead)].
  - vm_compute in Hmenu. discriminate Hmenu.
  - exact (Hdead TgBot.GET_NAME).
Defined.

(** *** From the bot to the certificate *)

(** X11: an application the bot files on confirmation cannot be
    printed as filed (its status is Pending: 403); once the
    administrator sets it to Approved, the certificate is named after
    the prn and shows the name as the requester typed it, the prn and
    the batch of the student's record, with "First Year",
    "Engineering" and "Bonafide Certificate" for the year, branch and
    purpose the bot never records. *)
Theorem filed_application_prints `{Py.UnicodeData}
    (e : TgBot.Env) (w : TgBot.World) (q : TgBot.Query)
    (prn name batch : Py.str) (sd : Firebase.record) (now today : Py.str) :
  TgBot.answer_ok e = true → TgBot.db_ok e = true →
  TgBot.data q = Py.lit "confirm_yes" →
  TgBot.ud_prn (TgBot.user_data w) = Some prn →
  TgBot.ud_name (TgBot.user_data w) = Some name →
  TgBot.ud_student_data (TgBot.user_data w) = Some sd →
  sd !! "batch" = Some batch →
  let filed :=
    TgBot.applications_ref
      (TgBot.conv_handler e (Some TgBot.CONFIRM) (TgBot.Callback q) w).1.1 in
  let approved :=
    (Web.process_application true now (TgBot.push_key e)
       (Some (Py.lit "Approved")) filed).1.1 in
  Web.print_bonafide true true today (TgBot.push_key e) filed
  = Web.Body "Application not approved" 403
  ∧ Web.print_bonafide true true today (TgBot.push_key e) approved
    = Web.SendFile (prn ++ Py.lit "_bonafide.pdf")
        [name; Py.lit "First Year"; Py.lit "Engineering"; prn; batch;
         Py.lit "Bonafide Certificate"; today].
Proof.
  intros Hanswer Hdb Hdata Hprn Hname Hsd Hbatch filed approved.
  assert (Hfiled : filed =
    <[TgBot.push_key e := TgBot.application_data (TgBot.user_data w) q]>
      (TgBot.applications_ref w)).
  { unfold filed, TgBot.conv_handler, TgBot.select.
    unfold TgBot.re_match at 1. rewrite Hdata.
    rewrite (bool_decide_true (Py.lit "confirm_yes" = Py.lit "confirm_yes"))
      by done.
    simpl. rewrite confirm_submission_run, Hanswer, Hdata, Hdb.
    by rewrite bool_decide_true. }
  assert (Hfield : ∀ k,
    Spec.field filed (TgBot.push_key e) k
    = TgBot.application_data (TgBot.user_data w) q !! k).
  { intros k. unfold Spec.field. rewrite Hfiled, lookup_insert_eq. done. }
  split.
  - rewrite (print_bonafide_found true today (TgBot.push_key e) filed
               (TgBot.application_data (TgBot.user_data w) q)).
    + rewrite application_data_lookup. reflexivity.
    + by rewrite Hfiled, lookup_insert_eq.
    + intros Hempty.
      pose proof (application_data_lookup (TgBot.user_data w) q "status")
        as Hstatus.
      rewrite Hempty, lookup_empty in Hstatus. simpl in Hstatus. done.
  - destruct (processed_record now (TgBot.push_key e)
                (Some (Py.lit "Approved")) filed Spec.Approved)
      as (app & Happ & Hne & Hstatus & _ & Hrest); [vm_compute; reflexivity |].
    unfold approved.
    rewrite (print_bonafide_found true today (TgBot.push_key e) _ app Happ Hne).
    rewrite Hstatus, bool_decide_false by (by intros ?).
    unfold Firebase.get_or. rewrite !Hrest by done.
    rewrite !Hfield, !application_data_lookup. simpl.
    rewrite Hprn, Hname, Hsd. simpl. rewrite Hbatch. reflexivity.
Qed.

Lemma filed_application_prints_witness :
  Web.print_bonafide true true (Py.lit "02 / 01 / 2025") (Py.lit "-NxA1")
    (TgBot.applications_ref
       (TgBot.session (H := Py.sample_unicode) TgBot.GET_PRN Spec.fresh
          Spec.scenario).1.1)
  = Web.Body "Application not approved" 403.
Proof.
  pose (w := {| TgBot.user_data :=
                  TgBot.with_phone (Py.lit "9000000000")
                    (TgBot.user_data Spec.at_phone);
                TgBot.student_ref := Spec.directory;
                TgBot.applications_ref := ∅ |}).
  destruct (filed_application_prints (H := Py.sample_unicode) Spec.fine w
              {| TgBot.data := Py.lit "confirm_yes";
                 TgBot.message_chat_id := 4242;
                 TgBot.message_date := Py.lit "2025-01-01 10:00:00+00:00" |}
              (Py.lit "12345678") (Py.lit "john smith") (Py.lit "2024-28")
              Spec.john (Py.lit "2025-01-02T08:00:00")
              (Py.lit "02 / 01 / 2025"))
    as [Hpending _];
    [reflexivity | reflexivity | reflexivity | reflexivity | reflexivity
    | reflexivity | reflexivity |].
  exact Hpending.
Defined.

Lemma conversation_store_frame_witness :
  TgBot.applications_ref
    (TgBot.conv_handler (H := Py.sample_unicode) Spec.fine
       (Some TgBot.GET_PHONE) (TgBot.Text (Py.lit "9000000000"))
       Spec.at_phone).1.1
  = TgBot.applications_ref Spec.at_phone.
Proof.
  pose proof (conversation_store_frame (H := Py.sample_unicode) Spec.fine
                (Some TgBot.GET_PHONE) (TgBot.Text (Py.lit "9000000000"))
                Spec.at_phone) as Hframe.
  destruct (TgBot.conv_handler Spec.fine (Some TgBot.GET_PHONE)
              (TgBot.Text (Py.lit "9000000000")) Spec.at_phone)
    as [[w' fx] st'] eqn:Hrun.
  destruct Hframe as (_ & _ & Hnone & _).
  apply Hnone.
  assert (Hfx : fx = (TgBot.conv_handler (H := Py.sample_unicode) Spec.fine
                        (Some TgBot.GET_PHONE)
                        (TgBot.Text (Py.lit "9000000000")) Spec.at_phone).1.2)
    by (by rewrite Hrun).
  rewrite Hfx. vm_compute. reflexivity.
Defined.

(** *** Retrying, and updating twice *)

(** X12: wrong names in GET_NAME, and wrong phones in GET_PHONE, in
    any number and whatever the transport does, leave the conversation
    in its state with the bot's data unchanged and nothing filed: the
    requester may retry without limit. *)
Theorem wrong_answers_keep_waiting `{Py.UnicodeData}
    (w : TgBot.World) (sd : Firebase.record)
    (updates : list (TgBot.Env * TgBot.Update)) :
  TgBot.ud_student_data (TgBot.user_data w) = Some sd →
  (Forall (λ eu : TgBot.Env * TgBot.Update,
             ∃ text, eu.2 = TgBot.Text text
                     ∧ Py.upper (Py.strip text)
                       ≠ Py.upper (Py.strip
                                     (Firebase.get_or sd "name" (Py.lit ""))))
          updates →
   (TgBot.session TgBot.GET_NAME w updates).2 = Some TgBot.GET_NAME
   ∧ (TgBot.session TgBot.GET_NAME w updates).1.1 = w
   ∧ TgBot.creates (TgBot.session TgBot.GET_NAME w updates).1.2 = 0%nat)
  ∧ (Forall (λ eu : TgBot.Env * TgBot.Update,
               ∃ text, eu.2 = TgBot.Text text
                       ∧ Py.strip text
                         ≠ Py.strip (Firebase.get_or sd "phone" (Py.lit "")))
            updates →
     (TgBot.session TgBot.GET_PHONE w updates).2 = Some TgBot.GET_PHONE
     ∧ (TgBot.session TgBot.GET_PHONE w updates).1.1 = w
     ∧ TgBot.creates (TgBot.session TgBot.GET_PHONE w updates).1.2 = 0%nat).
Proof.
  intros Hsd. split.
  - induction 1 as [| [e u] rest (text & Hu & Hwrong) _ IH]; [done |].
    simpl in Hu. subst u. simpl.
    rewrite (get_name_run e text w sd Hsd). simpl.
    rewrite bool_decide_true by done.
    destruct (TgBot.session TgBot.GET_NAME w rest) as [[w2 fx2] st2].
    simpl in *. destruct IH as (-> & -> & Hnone).
    split; [done |]. split; [done |].
    rewrite creates_app, Hnone. by destruct (TgBot.send_ok e).
  - induction 1 as [| [e u] rest (text & Hu & Hwrong) _ IH]; [done |].
    simpl in Hu. subst u. simpl.
    rewrite (get_phone_run e text w sd Hsd).
    rewrite bool_decide_true by done.
    destruct (TgBot.session TgBot.GET_PHONE w rest) as [[w2 fx2] st2].
    simpl in *. destruct IH as (-> & -> & Hnone).
    split; [done |]. split; [done |].
    rewrite creates_app, Hnone. by destruct (TgBot.send_ok e).
Qed.

Lemma wrong_answers_keep_waiting_witness :
  (TgBot.session (H := Py.sample_unicode) TgBot.GET_PHONE Spec.at_phone
     [(Spec.fine, TgBot.Text (Py.lit "9000000001"));
      (Spec.fine, TgBot.Text (Py.lit "900 000 0000"))]).2
  = Some TgBot.GET_PHONE.
Proof.
  destruct (wrong_answers_keep_waiting (H := Py.sample_unicode) Spec.at_phone
              Spec.john
              [(Spec.fine, TgBot.Text (Py.lit "9000000001"));
               (Spec.fine, TgBot.Text (Py.lit "900 000 0000"))] eq_refl)
    as [_ Hphones].
  destruct Hphones as (Hstate & _); [| exact Hstate].
  repeat constructor; eexists; (split; [reflexivity |]);
    vm_compute; discriminate.
Defined.

(** X13: of two accepted status updates of the same application that
    the database carries out, the second wins entirely: the node is
    what the second update alone would have left, with its status and
    its time.  In particular a repeated update changes only the
    time. *)
Theorem last_status_wins (now1 now2 app_id : Py.str)
    (form1 form2 : option Py.str) (apps : Firebase.node)
    (st1 st2 : Spec.Status) :
  Py.strip (default (Py.lit "") form1) = Spec.status_str st1 →
  Py.strip (default (Py.lit "") form2) = Spec.status_str st2 →
  (Web.process_application true now2 app_id form2
     (Web.process_application true now1 app_id form1 apps).1.1).1.1
  = (Web.process_application true now2 app_id form2 apps).1.1.
Proof.
  intros Hst1 Hst2.
  rewrite (process_application_accepted now1 app_id form1 apps st1 Hst1).
  rewrite !(process_application_accepted now2 app_id form2 _ st2 Hst2).
  simpl. unfold Firebase.child_update.
  rewrite lookup_insert_eq, insert_insert_eq. simpl. f_equal.
  apply map_eq. intros k.
  rewrite !lookup_union, !status_fields_lookup.
  repeat case_decide; simpl; try done.
  - by destruct (default ∅ (apps !! app_id) !! k).
  - by destruct (default ∅ (apps !! app_id) !! k).
  - by destruct (default ∅ (apps !! app_id) !! k).
Qed.

Lemma last_status_wins_witness :
  Spec.field
    (Web.process_application true (Py.lit "2025-01-03T09:30:00")
       (Py.lit "-NxA1") (Some (Py.lit "Pending"))
       (Web.process_application true (Py.lit "2025-01-02T08:00:00")
          (Py.lit "-NxA1") (Some (Py.lit "Approved"))
          (Spec.one_application (Py.lit "Pending"))).1.1).1.1
    (Py.lit "-NxA1") "status"
  = Some (Py.lit "Pending").
Proof.
  rewrite (last_status_wins (Py.lit "2025-01-02T08:00:00")
             (Py.lit "2025-01-03T09:30:00") (Py.lit "-NxA1")
             (Some (Py.lit "Approved")) (Some (Py.lit "Pending"))
             (Spec.one_application (Py.lit "Pending"))
             Spec.Approved Spec.Pending);
    vm_compute; reflexivity.
Defined.

(** X14: for an identifier under which there is no application, an
    Approved status update that the database carries out makes
    [print_bonafide] send a certificate: the file is named
    "_bonafide.pdf" and shows an empty name, prn and batch beside the
    default year, branch and purpose. *)
Theorem unfiled_application_prints (today now app_id : Py.str)
    (apps : Firebase.node) :
  apps !! app_id = None →
  Web.print_bonafide true true today app_id
    (Web.process_application true now app_id (Some (Py.lit "Approved"))
       apps).1.1
  = Web.SendFile (Py.lit "_bonafide.pdf")
      [Py.lit ""; Py.lit "First Year"; Py.lit "Engineering"; Py.lit "";
       Py.lit ""; Py.lit "Bonafide Certificate"; today].
Proof.
  intros Hnone.
  destruct (processed_record now app_id (Some (Py.lit "Approved")) apps
              Spec.Approved)
    as (app & Happ & Hne & Hstatus & _ & Hrest); [vm_compute; reflexivity |].
  rewrite (print_bonafide_found true today app_id _ app Happ Hne).
  rewrite Hstatus, bool_decide_false by (by intros ?).
  unfold Firebase.get_or. rewrite !Hrest by done.
  unfold Spec.field. rewrite Hnone. reflexivity.
Qed.

Lemma unfiled_application_prints_witness :
  Web.print_bonafide true true (Py.lit "02 / 01 / 2025") (Py.lit "-NxB2")
    (Web.process_application true (Py.lit "2025-01-02T08:00:00")
       (Py.lit "-NxB2") (Some (Py.lit "Approved"))
       (Spec.one_application (Py.lit "Pending"))).1.1
  = Web.SendFile (Py.lit "_bonafide.pdf")
      [Py.lit ""; Py.lit "First Year"; Py.lit "Engineering"; Py.lit "";
       Py.lit ""; Py.lit "Bonafide Certificate"; Py.lit "02 / 01 / 2025"].
Proof.
  apply unfiled_application_prints. vm_compute. reflexivity.
Defined.
